(** * Frost-cracking model: the class [FROST_CRACK_2D] of
      frost-cracking-index.ipynb and the driver loop of the notebook

    The notebook computes with NumPy [float64] arrays and Python floats.
    The embedding keeps the arithmetic abstract: every definition of the
    model is written over a carrier [F] with the operations of the class
    [Float], applied in the order in which the Python expressions apply
    them.  Theorems about which array cells are written, and with which
    expression, therefore hold for any arithmetic.  Theorems that need
    the order or the field laws are stated on the instance of exact
    rationals [Q], where no rounding and no NaN exist.

    Arrays are nested lists, indexed with stdpp's lookup; every index
    error that Python raises is written out. *)

From Stdlib Require Import QArith Qround ZArith Lia.
From stdpp Require Import base list.

Set Default Proof Using "Type".

(** ** Arithmetic *)

Class Float (F : Type) := {
  fadd : F -> F -> F;
  fsub : F -> F -> F;
  fmul : F -> F -> F;
  fdiv : F -> F -> F;
  fneg : F -> F;
  lit : Q -> F;               (* a numeric literal, or an int used as a float *)
  fltb : F -> F -> bool;      (* a < b *)
  feqb : F -> F -> bool;      (* a == b *)
  fceil : F -> Z              (* math.ceil *)
}.

Arguments lit {F _} _%_Q.

Declare Scope float_scope.
Delimit Scope float_scope with fl.
Infix "+" := fadd : float_scope.
Infix "-" := fsub : float_scope.
Infix "*" := fmul : float_scope.
Infix "/" := fdiv : float_scope.
Notation "- x" := (fneg x) : float_scope.
Infix "<?" := fltb : float_scope.
Notation "a >? b" := (fltb b a) : float_scope.
Infix "=?" := feqb : float_scope.

Definition Qltb (a b : Q) : bool := negb (Qle_bool b a).

(** Exact rational arithmetic, every result in lowest terms. *)
#[export] Instance Q_Float : Float Q := {|
  fadd := fun a b => Qred (Qplus a b);
  fsub := fun a b => Qred (Qminus a b);
  fmul := fun a b => Qred (Qmult a b);
  fdiv := fun a b => Qred (Qdiv a b);
  fneg := Qopp;
  lit := Qred;
  fltb := Qltb;
  feqb := Qeq_bool;
  fceil := Qceiling
|}.

(** An int promoted to a float. *)
Definition of_Z {F} `{Float F} (z : Z) : F := lit (inject_Z z).
Definition of_nat {F} `{Float F} (n : nat) : F := of_Z (Z.of_nat n).

(** ** Python exceptions and results

    An exception does not roll the object back: [Raise] carries the state
    as it is when the exception leaves the method. *)

Inductive exn :=
  | AssertionError
  | AttributeError
  | IndexError
  | UnboundLocalError
  | ValueError
  | ZeroDivisionError.

Inductive result (S A : Type) :=
  | Ok (a : A)
  | Raise (e : exn) (s : S).
Arguments Ok {S A} a.
Arguments Raise {S A} e s.

#[export] Instance result_bind {S} : MBind (result S) := fun A B k r =>
  match r with
  | Ok a => k a
  | Raise e s => Raise e s
  end.

(** The state in which a call ends, whether it returned or raised. *)
Definition final {S} (r : result S S) : S :=
  match r with
  | Ok s => s
  | Raise _ s => s
  end.

Definition is_Ok {S A} (r : result S A) : bool :=
  match r with
  | Ok _ => true
  | Raise _ _ => false
  end.

(** The value a call returns, or [d] when it raises. *)
Definition value_or {S A} (d : A) (r : result S A) : A :=
  match r with
  | Ok a => a
  | Raise _ _ => d
  end.

(** ** NumPy operations used by the class *)

Section Numpy.
Context {F : Type} `{Float F}.
Local Open Scope float_scope.

(** [np.sum] of a flat array, summed from the first element on. *)
Definition sum (l : list F) : F :=
  match l with
  | [] => lit 0
  | x :: l' => foldl fadd x l'
  end.

(** [np.mean] of a flat array. *)
Definition mean (l : list F) : F := sum l / of_nat (length l).

(** [np.diff]: [a[i+1] - a[i]]. *)
Definition diff (a : list F) : list F :=
  zip_with (fun hi lo => hi - lo) (drop 1 a) a.

(** [np.arange(start, stop, step)] with a float bound. *)
Definition arange (start stop step : F) : list F :=
  (fun i => start + of_nat i * step) <$>
    seq 0 (Z.to_nat (fceil ((stop - start) / step))).

(** [np.linspace(start, stop, num)], for [num >= 0]. *)
Definition linspace (start stop : F) (num : nat) : list F :=
  let div := (num - 1)%nat in
  let delta := stop - start in
  let y := of_nat <$> seq 0 num in
  let y :=
    if (0 <? div)%nat then
      let step := delta / of_nat div in
      if step =? lit 0
      then (fun v => v / of_nat div * delta) <$> y
      else (fun v => v * step) <$> y
    else (fun v => v * delta) <$> y in
  let y := (fun v => v + start) <$> y in
  if (1 <? num)%nat then <[(num - 1)%nat := stop]> y else y.

(** [np.interp(x, xp, fp)] at one point, for increasing [xp]; [xj], [fj]
    is the sample point at or below [x] found so far. *)
Fixpoint interp_from (x xj fj : F) (xp fp : list F) : F :=
  match xp, fp with
  | xj1 :: xp', fj1 :: fp' =>
      if x <? xj1 then
        if x =? xj then fj
        else (fj1 - fj) / (xj1 - xj) * (x - xj) + fj
      else interp_from x xj1 fj1 xp' fp'
  | _, _ => fj
  end.

Definition interp1 (xp fp : list F) (x : F) : option F :=
  match xp, fp with
  | x0 :: xp', f0 :: fp' =>
      Some (if x <? x0 then f0 else interp_from x x0 f0 xp' fp')
  | _, _ => None
  end.

(** [np.interp] raises ValueError on an empty [xp] and on arrays of
    different lengths. *)
Definition interp (x xp fp : list F) : option (list F) :=
  match xp with
  | [] => None
  | _ => if (length xp =? length fp)%nat then mapM (interp1 xp fp) x else None
  end.

End Numpy.

(** An elementwise operation on a 2-d and on a 3-d array. *)
Definition map2 {A B} (f : A -> B) (a : list (list A)) : list (list B) :=
  map (map f) a.
Definition map3 {A B} (f : A -> B) (a : list (list (list A)))
  : list (list (list B)) :=
  map (map2 f) a.

(** ** The object *)

Section Model.
Context {F : Type} `{Float F}.
Local Open Scope float_scope.

Abbreviation array3 := (list (list (list F))).

(** The attributes of a [FROST_CRACK_2D] object built from a DEM
    ([self.grid] and the unit string [self.t_org_unit] carry no
    number and are left out; [self.grid.number_of_nodes] is
    [grid_rows * grid_cols]).  [self.x] and [self.y] exist only after
    the first completed step. *)
Record state := mkState {
  grid_rows : nat;
  grid_cols : nat;
  elevation : list (list F);
  T_ele : F;
  Ts_org : list F;
  t_org_start : F;
  Ts : list F;
  time : list F;
  dz : F;
  timestep_duration_should : F;
  timestep_duration_is : F;
  temp_lapse_rate : F;
  Ts_ini : F;
  Ts0_ele : array3;
  depth : list F;
  temp : array3;
  frostcrackA : array3;
  frostcrackHR : array3;
  geotherm : F;
  thermal_diffusivity : F;
  num_nodes : Z;
  current_time : F;
  current_timestep : nat;
  max_act_layer_depth : F;
  self_x : option nat;
  self_y : option nat
}.

(** Attribute assignments of [run_one_step]. *)
Definition set_temp (v : array3) (s : state) : state :=
  mkState (grid_rows s) (grid_cols s) (elevation s) (T_ele s) (Ts_org s)
    (t_org_start s) (Ts s) (time s) (dz s) (timestep_duration_should s)
    (timestep_duration_is s) (temp_lapse_rate s) (Ts_ini s) (Ts0_ele s)
    (depth s) v (frostcrackA s) (frostcrackHR s) (geotherm s)
    (thermal_diffusivity s) (num_nodes s) (current_time s)
    (current_timestep s) (max_act_layer_depth s) (self_x s) (self_y s).

Definition set_Ts_ini (v : F) (s : state) : state :=
  mkState (grid_rows s) (grid_cols s) (elevation s) (T_ele s) (Ts_org s)
    (t_org_start s) (Ts s) (time s) (dz s) (timestep_duration_should s)
    (timestep_duration_is s) (temp_lapse_rate s) v (Ts0_ele s)
    (depth s) (temp s) (frostcrackA s) (frostcrackHR s) (geotherm s)
    (thermal_diffusivity s) (num_nodes s) (current_time s)
    (current_timestep s) (max_act_layer_depth s) (self_x s) (self_y s).

Definition set_frostcrackA (v : array3) (s : state) : state :=
  mkState (grid_rows s) (grid_cols s) (elevation s) (T_ele s) (Ts_org s)
    (t_org_start s) (Ts s) (time s) (dz s) (timestep_duration_should s)
    (timestep_duration_is s) (temp_lapse_rate s) (Ts_ini s) (Ts0_ele s)
    (depth s) (temp s) v (frostcrackHR s) (geotherm s)
    (thermal_diffusivity s) (num_nodes s) (current_time s)
    (current_timestep s) (max_act_layer_depth s) (self_x s) (self_y s).

Definition set_clock (t : F) (k : nat) (s : state) : state :=
  mkState (grid_rows s) (grid_cols s) (elevation s) (T_ele s) (Ts_org s)
    (t_org_start s) (Ts s) (time s) (dz s) (timestep_duration_should s)
    (timestep_duration_is s) (temp_lapse_rate s) (Ts_ini s) (Ts0_ele s)
    (depth s) (temp s) (frostcrackA s) (frostcrackHR s) (geotherm s)
    (thermal_diffusivity s) (num_nodes s) t k
    (max_act_layer_depth s) (self_x s) (self_y s).

Definition set_xy (x y : nat) (s : state) : state :=
  mkState (grid_rows s) (grid_cols s) (elevation s) (T_ele s) (Ts_org s)
    (t_org_start s) (Ts s) (time s) (dz s) (timestep_duration_should s)
    (timestep_duration_is s) (temp_lapse_rate s) (Ts_ini s) (Ts0_ele s)
    (depth s) (temp s) (frostcrackA s) (frostcrackHR s) (geotherm s)
    (thermal_diffusivity s) (num_nodes s) (current_time s)
    (current_timestep s) (max_act_layer_depth s) (Some x) (Some y).

(** *** Indexing a 3-d array *)

(** [a[x, y, :]], a view of one column; [None] is Python's IndexError. *)
Definition column (a : array3) (x y : nat) : option (list F) :=
  row ← a !! x; row !! y.

(** [a[x, y, :] = col] for a column of the right length. *)
Definition put_column (a : array3) (x y : nat) (col : list F) : array3 :=
  alter (fun row => <[y := col]> row) x a.

(** *** The constructor *)

(** What [__init__] reads: its keyword arguments and the contents of
    the two files.  [dem_data] is [rio.open(dem_path).read()], indexed
    band, row, column; [nc_time] is the NetCDF variable [time] and
    [nc_ts] the variable [ts] at the grid cell nearest to [lat], [lon],
    in Kelvin. *)
Record init_args := mkArgs {
  arg_use_dem : bool;
  arg_dem_data : array3;
  arg_nc_time : list F;
  arg_nc_ts : list F;
  arg_temp_lapse_rate : F;
  arg_thermal_diffusivity : F;
  arg_profile_depth : F;
  arg_geotherm : F;
  arg_num_nodes : Z
}.

Definition raise {A} (e : exn) : result unit A := Raise e tt.

Definition from_option {A} (e : exn) (o : option A) : result unit A :=
  match o with
  | Some a => Ok a
  | None => raise e
  end.

(** [dem_data[dem_data < -100] = np.nanmean(dem_data)], for a raster of
    floats without NaN (on an integer raster NumPy stores the truncated
    mean, and [np.nanmean] skips NaN cells). *)
Definition fill_gaps (dem : array3) : array3 :=
  let m := mean (concat (concat dem)) in
  map3 (fun v => if v <? lit (-100) then m else v) dem.

(** [### SETUP GRID]: the elevation band and the reference elevation
    [T_ele].  The branch without a DEM is taken as it runs in the
    notebook, where the global [rows] is 10: its first loop reads the
    local [dem] before it is assigned.  No object is built on that
    branch in any case, since it never sets [self.elevation]. *)
Definition setup_grid (a : init_args) : result unit (list (list F) * F) :=
  if arg_use_dem a then
    let dem_data := fill_gaps (arg_dem_data a) in
    elevation ← from_option IndexError (dem_data !! 0%nat);
    Ok (elevation, mean (concat (concat dem_data)))
  else raise UnboundLocalError.

(** [### LOAD NETCDF FILE]: [Ts_org] in degrees C, [t_org_start], the
    hourly times [tnew] and the resampled series [Ts_new]. *)
Definition load_netcdf (a : init_args)
  : result unit (list F * F * list F * list F) :=
  let t := arg_nc_time a in
  let Ts_org := (fun v => v - lit 273.15) <$> arg_nc_ts a in
  t_org_start ← from_option IndexError (t !! 0%nat);
  let t := (fun v => (v - t_org_start) * lit 24 * lit 60 * lit 60) <$> t in
  t_last ← from_option IndexError (last t);
  let tnew := arange (lit 0) t_last (lit 3600) in
  Ts_new ← from_option ValueError (interp tnew t Ts_org);
  Ok (Ts_org, t_org_start, tnew, Ts_new).

(** [#### Set depth and time steps], up to the assertion: [dz],
    [timestep_duration_should] and [timestep_duration_is].  Both
    divisions are divisions of Python scalars, which raise on zero. *)
Definition set_steps (a : init_args) (time : list F)
  : result unit (F * F * F) :=
  if (arg_num_nodes a - 1 =? 0)%Z then raise ZeroDivisionError else
  let dz := arg_profile_depth a / of_Z (arg_num_nodes a - 1) in
  if lit 2 * arg_thermal_diffusivity a =? lit 0 then raise ZeroDivisionError else
  let timestep_duration_should :=
    dz * dz / (lit 2 * arg_thermal_diffusivity a) in
  time1 ← from_option IndexError (time !! 1%nat);
  time0 ← from_option IndexError (time !! 0%nat);
  Ok (dz, timestep_duration_should, time1 - time0).

Definition init (a : init_args) : result unit state :=
  '(elevation, T_ele) ← setup_grid a;
  let grid_rows := length elevation in
  let grid_cols := length (default [] (elevation !! 0%nat)) in
  '(Ts_org, t_org_start, tnew, Ts_new) ← load_netcdf a;
  let time := tnew in
  '(dz, timestep_duration_should, timestep_duration_is) ← set_steps a time;
  if negb (timestep_duration_should >? timestep_duration_is)
  then raise AssertionError else
  (* scale temperature with elevation *)
  let Ts_ini := mean Ts_new in
  let Ts0_ele :=
    map2 (fun e => Ts_ini + arg_temp_lapse_rate a * (e - T_ele)) elevation in
  if (arg_num_nodes a <? 0)%Z then raise ValueError else
  let n := Z.to_nat (arg_num_nodes a) in
  let Ts0_ele := map2 (replicate n) Ts0_ele in
  (* calculate temp along geothermal gradient *)
  let depth := linspace (lit 0) (arg_profile_depth a) n in
  let geotherm_grad := (fun d => arg_geotherm a * d) <$> depth in
  let geotherm_matrix :=
    replicate grid_rows (replicate grid_cols geotherm_grad) in
  let temp := zip_with (zip_with (zip_with fadd)) Ts0_ele geotherm_matrix in
  let zeros := map3 (fun _ => lit 0) temp in
  Ok {| grid_rows := grid_rows; grid_cols := grid_cols;
        elevation := elevation; T_ele := T_ele; Ts_org := Ts_org;
        t_org_start := t_org_start; Ts := Ts_new; time := time; dz := dz;
        timestep_duration_should := timestep_duration_should;
        timestep_duration_is := timestep_duration_is;
        temp_lapse_rate := arg_temp_lapse_rate a; Ts_ini := Ts_ini;
        Ts0_ele := Ts0_ele; depth := depth; temp := temp;
        frostcrackA := zeros; frostcrackHR := zeros;
        geotherm := arg_geotherm a;
        thermal_diffusivity := arg_thermal_diffusivity a;
        num_nodes := arg_num_nodes a;
        current_time := lit 0; current_timestep := 0;
        max_act_layer_depth := lit 0;
        self_x := None; self_y := None |}.

(** *** The methods *)

(** [self.temp[x, y, :] = v]: IndexError off the grid; a value of
    another length is broadcast when it has one element and is a
    ValueError otherwise. *)
Definition assign_column (x y : nat) (v : list F) (s : state)
  : result state state :=
  match column (temp s) x y with
  | None => Raise IndexError s
  | Some col =>
      if (length v =? length col)%nat
      then Ok (set_temp (put_column (temp s) x y v) s)
      else match v with
           | [v0] => Ok (set_temp
                           (put_column (temp s) x y (replicate (length col) v0)) s)
           | _ => Raise ValueError s
           end
  end.

(** [self.temp[x, y, 0] = v] *)
Definition assign_top (x y : nat) (v : F) (s : state) : result state state :=
  match column (temp s) x y with
  | Some (t0 :: col) => Ok (set_temp (put_column (temp s) x y (v :: col)) s)
  | _ => Raise IndexError s
  end.

(** [col[1:-1]] *)
Definition interior (col : list F) : list F :=
  take (length col - 2) (drop 1 col).

(** [col[1:-1] = v], for [v] as long as the slice. *)
Definition put_interior (col v : list F) : list F :=
  take 1 col ++ v ++ drop (1 + length v) col.

(** [q = -self.thermal_diffusivity * np.diff(col) / self.dz] *)
Definition flux (s : state) (col : list F) : list F :=
  (fun d => - thermal_diffusivity s * d / dz s) <$> diff col.

(** [col[1:-1] = col[1:-1] - self.timestep_duration_is * np.diff(q) / self.dz] *)
Definition diffuse (s : state) (col : list F) : list F :=
  let q := flux s col in
  put_interior col
    (zip_with (fun t dq => t - timestep_duration_is s * dq / dz s)
       (interior col) (diff q)).

(** [cond1 & cond2] at one sample *)
Definition in_window (t : F) : bool := (t >? lit (-8)) && (t <? lit (-3)).

(** The literal [1/(3600*24*365)] *)
Definition frost_increment : F := lit 1 / of_Z (3600 * 24 * 365).

(** [fcol[cond1 & cond2] += 1/(3600*24*365)] *)
Definition accumulate (fcol col : list F) : list F :=
  zip_with (fun f t => if in_window t then f + frost_increment else f) fcol col.

(** [np.mean(self.Ts_org) + self.geotherm * self.depth] *)
Definition reseed (s : state) : list F :=
  (fun d => mean (Ts_org s) + geotherm s * d) <$> depth s.

Definition run_one_step (s : state) : result state state :=
  let x := 500%nat in
  let y := 400%nat in
  s ← (if (current_timestep s =? 0)%nat
       then assign_column x y (reseed s) s
       else Ok s);
  match Ts s !! current_timestep s with
  | None => Raise IndexError s
  | Some v =>
  let s := set_Ts_ini v s in
  s ← assign_top x y (Ts_ini s) s;
  match column (temp s) x y with
  | None => Raise IndexError s
  | Some col =>
  let s := set_temp (put_column (temp s) x y (diffuse s col)) s in
  let s := set_clock (current_time s + timestep_duration_is s)
             (S (current_timestep s)) s in
  match column (temp s) x y, column (frostcrackA s) x y with
  | Some col, Some fcol =>
      if (length col =? length fcol)%nat then
        let s := set_frostcrackA
                   (put_column (frostcrackA s) x y (accumulate fcol col)) s in
        Ok (set_xy x y s)
      else Raise IndexError s
  | _, _ => Raise IndexError s
  end
  end
  end.

(** The column of the active node on which a step writes the boundary
    value: the reseeded one at the first step, the stored one later. *)
Definition entering (s : state) : option (list F) :=
  col ← column (temp s) 500 400;
  if (current_timestep s =? 0)%nat then
    if (length (reseed s) =? length col)%nat then Some (reseed s)
    else match reseed s with
         | [v0] => Some (replicate (length col) v0)
         | _ => None
         end
  else Some col.

(** [self.dem] is never assigned on an object built from a DEM. *)
Definition interp_Ts (s : state) : result state state :=
  Raise AttributeError s.

(** Both loops run over the grid nodes and do nothing. *)
Definition calculate_frost_cracking_depth_Anderson (s : state)
  : result state state := Ok s.

Definition calculate_frost_cracking_depth_Hales_Roering (s : state)
  : result state state := Ok s.

(** *** The driver loop of the notebook

    [while fc.current_timestep < len(fc.Ts): ...; fc.run_one_step()];
    the plotting inside the loop reads the object only.  [None] means
    that [fuel] iterations were not enough. *)
Fixpoint driver (fuel : nat) (s : state) : option (result state state) :=
  if (current_timestep s <? length (Ts s))%nat then
    match fuel with
    | O => None
    | S fuel' =>
        match run_one_step s with
        | Ok s' => driver fuel' s'
        | Raise e s' => Some (Raise e s')
        end
    end
  else Some (Ok s).

(** The operations a caller has on a constructed object. *)
Inductive op :=
  | Run_one_step
  | Interp_Ts
  | Calculate_Anderson
  | Calculate_Hales_Roering.

Definition exec (o : op) (s : state) : result state state :=
  match o with
  | Run_one_step => run_one_step s
  | Interp_Ts => interp_Ts s
  | Calculate_Anderson => calculate_frost_cracking_depth_Anderson s
  | Calculate_Hales_Roering => calculate_frost_cracking_depth_Hales_Roering s
  end.

(** A sequence of calls, each caught or returned, on the same object. *)
Definition exec_all (os : list op) (s : state) : state :=
  foldl (fun s o => final (exec o s)) s os.

End Model.

Arguments state F : clear implicits.
Arguments init_args F : clear implicits.

(** [a[r, c, i]] *)
Definition sample {A} (a : list (list (list A))) (r c i : nat) : option A :=
  column a r c ≫= (.!! i).

(** ** A small run on exact rationals

    One elevation band of 501 by 401 nodes at sea level, two raw
    temperature samples three hours apart (resampled to three hourly
    values), and a profile of three samples over two metres. *)

Definition demo_args : init_args Q :=
  {| arg_use_dem := true;
     arg_dem_data := [replicate 501 (replicate 401 0%Q)];
     arg_nc_time := [0%Q; 1 # 8];
     arg_nc_ts := [268.15%Q; 267.15%Q];
     arg_temp_lapse_rate := (-0.006)%Q;
     arg_thermal_diffusivity := 1 # 1000000;
     arg_profile_depth := 2%Q;
     arg_geotherm := 0.025%Q;
     arg_num_nodes := 3 |}.

(** The object that [init demo_args] returns. *)
Definition demo_state : state Q :=
  {| grid_rows := 501; grid_cols := 401;
     elevation := replicate 501 (replicate 401 0%Q);
     T_ele := 0%Q;
     Ts_org := [-5; -6]%Q;
     t_org_start := 0%Q;
     Ts := [-5; -16 # 3; -17 # 3]%Q;
     time := [0; 3600; 7200]%Q;
     dz := 1%Q;
     timestep_duration_should := 500000%Q;
     timestep_duration_is := 3600%Q;
     temp_lapse_rate := (-0.006)%Q;
     Ts_ini := (-16 # 3)%Q;
     Ts0_ele := replicate 501 (replicate 401 [-16 # 3; -16 # 3; -16 # 3]%Q);
     depth := [0; 1; 2]%Q;
     temp := replicate 501 (replicate 401 [-16 # 3; -637 # 120; -317 # 60]%Q);
     frostcrackA := replicate 501 (replicate 401 [0; 0; 0]%Q);
     frostcrackHR := replicate 501 (replicate 401 [0; 0; 0]%Q);
     geotherm := 0.025%Q;
     thermal_diffusivity := (1 # 1000000)%Q;
     num_nodes := 3;
     current_time := 0%Q;
     current_timestep := 0;
     max_act_layer_depth := 0%Q;
     self_x := None; self_y := None |}.

(** Its state after one call of [run_one_step]. *)
Definition demo_state1 : state Q := final (run_one_step demo_state).

(** A DEM of 100 by 120 nodes at 250 m, same series and profile. *)
Definition small_args : init_args Q :=
  {| arg_use_dem := true;
     arg_dem_data := [replicate 100 (replicate 120 250%Q)];
     arg_nc_time := [0%Q; 1 # 8];
     arg_nc_ts := [268.15%Q; 267.15%Q];
     arg_temp_lapse_rate := (-0.006)%Q;
     arg_thermal_diffusivity := 1 # 1000000;
     arg_profile_depth := 2%Q;
     arg_geotherm := 0.025%Q;
     arg_num_nodes := 3 |}.

(** The object built from it. *)
Definition small_state : state Q := value_or demo_state (init small_args).

(** A DEM of 100 by 120 nodes, the first fifty rows at 200 m and the
    others at 300 m, and the object built from it. *)
Definition sloped_args : init_args Q :=
  {| arg_use_dem := true;
     arg_dem_data :=
       [replicate 50 (replicate 120 200%Q) ++ replicate 50 (replicate 120 300%Q)];
     arg_nc_time := [0%Q; 1 # 8];
     arg_nc_ts := [268.15%Q; 267.15%Q];
     arg_temp_lapse_rate := (-0.006)%Q;
     arg_thermal_diffusivity := 1 # 1000000;
     arg_profile_depth := 2%Q;
     arg_geotherm := 0.025%Q;
     arg_num_nodes := 3 |}.

Definition sloped_state : state Q := value_or demo_state (init sloped_args).

(** The same with a single depth sample. *)
Definition one_node_args : init_args Q :=
  {| arg_use_dem := true;
     arg_dem_data := [replicate 100 (replicate 120 250%Q)];
     arg_nc_time := [0%Q; 1 # 8];
     arg_nc_ts := [268.15%Q; 267.15%Q];
     arg_temp_lapse_rate := (-0.006)%Q;
     arg_thermal_diffusivity := 1 # 1000000;
     arg_profile_depth := 2%Q;
     arg_geotherm := 0.025%Q;
     arg_num_nodes := 1 |}.

(** The same with a diffusivity of 1e-3 m2/s: [dt_stable] is 500 s. *)
Definition unstable_args : init_args Q :=
  {| arg_use_dem := true;
     arg_dem_data := [replicate 100 (replicate 120 250%Q)];
     arg_nc_time := [0%Q; 1 # 8];
     arg_nc_ts := [268.15%Q; 267.15%Q];
     arg_temp_lapse_rate := (-0.006)%Q;
     arg_thermal_diffusivity := 1 # 1000;
     arg_profile_depth := 2%Q;
     arg_geotherm := 0.025%Q;
     arg_num_nodes := 3 |}.

(** The same with no depth sample at all. *)
Definition no_nodes_args : init_args Q :=
  {| arg_use_dem := true;
     arg_dem_data := [replicate 100 (replicate 120 250%Q)];
     arg_nc_time := [0%Q; 1 # 8];
     arg_nc_ts := [268.15%Q; 267.15%Q];
     arg_temp_lapse_rate := (-0.006)%Q;
     arg_thermal_diffusivity := 1 # 1000000;
     arg_profile_depth := 2%Q;
     arg_geotherm := 0.025%Q;
     arg_num_nodes := 0 |}.

(** The same with a single sample in the NetCDF record, and with an
    empty record. *)
Definition single_sample_args : init_args Q :=
  {| arg_use_dem := true;
     arg_dem_data := [replicate 100 (replicate 120 250%Q)];
     arg_nc_time := [0%Q];
     arg_nc_ts := [268.15%Q];
     arg_temp_lapse_rate := (-0.006)%Q;
     arg_thermal_diffusivity := 1 # 1000000;
     arg_profile_depth := 2%Q;
     arg_geotherm := 0.025%Q;
     arg_num_nodes := 3 |}.

Definition no_time_args : init_args Q :=
  {| arg_use_dem := true;
     arg_dem_data := [replicate 100 (replicate 120 250%Q)];
     arg_nc_time := [];
     arg_nc_ts := [];
     arg_temp_lapse_rate := (-0.006)%Q;
     arg_thermal_diffusivity := 1 # 1000000;
     arg_profile_depth := 2%Q;
     arg_geotherm := 0.025%Q;
     arg_num_nodes := 3 |}.

(** An object on which a step can act: the active node exists, its
    [temp] column is not empty and is as long as [depth] and as its
    [frostcrackA] column. *)
Definition ready {F} (s : state F) : bool :=
  match column (temp s) 500 400, column (frostcrackA s) 500 400 with
  | Some col, Some fcol =>
      (0 <? length col)%nat && (length fcol =? length col)%nat
      && (length (depth s) =? length col)%nat
  | _, _ => false
  end.

(** * Properties *)

(** ** Columns of a 3-d array *)

Section Columns.
Context {A : Type}.
Implicit Types (a : list (list (list A))) (col : list A).

Lemma column_put_same a x y col :
  is_Some (column a x y) -> column (put_column a x y col) x y = Some col.
Proof.
  unfold column, put_column. intros [c Hc].
  rewrite list_lookup_alter_eq.
  destruct (a !! x) as [row|] eqn:Hrow; simpl in *; [|discriminate].
  apply list_lookup_insert_eq. by eapply lookup_lt_Some.
Qed.

Lemma column_put_other a x y col x' y' :
  (x', y') <> (x, y) -> column (put_column a x y col) x' y' = column a x' y'.
Proof.
  unfold column, put_column. intros Hne.
  destruct (decide (x = x')) as [->|Hx].
  - rewrite list_lookup_alter_eq.
    destruct (a !! x') as [row|]; simpl; [|done].
    apply list_lookup_insert_ne. congruence.
  - by rewrite list_lookup_alter_ne.
Qed.

Lemma put_column_twice a x y col1 col2 :
  put_column (put_column a x y col1) x y col2 = put_column a x y col2.
Proof.
  unfold put_column. revert x. induction a as [|row a IH]; intros [|x]; simpl; auto.
  - by rewrite list_insert_insert_eq.
  - f_equal. apply IH.
Qed.

Lemma put_column_id a x y col :
  column a x y = Some col -> put_column a x y col = a.
Proof.
  unfold column, put_column. revert x.
  induction a as [|row a IH]; intros [|x]; simpl; intros Hc; auto.
  - f_equal. by apply list_insert_id.
  - f_equal. by apply IH.
Qed.

Lemma column_put_is_Some a x y col x' y' :
  is_Some (column (put_column a x y col) x' y') <-> is_Some (column a x' y').
Proof.
  destruct (decide ((x', y') = (x, y))) as [[= -> ->]|Hne].
  - unfold column, put_column. rewrite list_lookup_alter_eq.
    destruct (a !! x) as [row|]; simpl; [|done].
    rewrite !lookup_lt_is_Some, length_insert. done.
  - by rewrite column_put_other.
Qed.

End Columns.

Section Diffusion.
Context {F : Type} `{Float F}.
Local Open Scope float_scope.
Implicit Types (s : state F) (col : list F).

Lemma length_diff col : length (diff col) = (length col - 1)%nat.
Proof. unfold diff. rewrite length_zip_with, length_drop. lia. Qed.

Lemma lookup_diff col i a b :
  col !! i = Some a -> col !! S i = Some b -> diff col !! i = Some (b - a).
Proof.
  intros Ha Hb. unfold diff. rewrite lookup_zip_with, lookup_drop.
  simpl. by rewrite Hb, Ha.
Qed.

Lemma length_flux s col : length (flux s col) = (length col - 1)%nat.
Proof. unfold flux. by rewrite length_fmap, length_diff. Qed.

Lemma lookup_flux s col i a b :
  col !! i = Some a -> col !! S i = Some b ->
  flux s col !! i = Some (- thermal_diffusivity s * (b - a) / dz s).
Proof.
  intros Ha Hb. unfold flux.
  by rewrite list_lookup_fmap, (lookup_diff _ _ _ _ Ha Hb).
Qed.

Lemma length_interior col : length (interior col) = (length col - 2)%nat.
Proof. unfold interior. rewrite length_take, length_drop. lia. Qed.

Lemma length_diffuse s col : length (diffuse s col) = length col.
Proof.
  unfold diffuse, put_interior.
  rewrite !length_app, length_take, length_drop, length_zip_with,
    length_interior, length_diff, length_flux. lia.
Qed.

Lemma lookup_diffuse_top s col : diffuse s col !! 0%nat = col !! 0%nat.
Proof. unfold diffuse, put_interior. by destruct col. Qed.

Lemma lookup_diffuse_interior s col i t qi qi1 :
  (1 <= i)%nat -> (i + 1 < length col)%nat ->
  col !! i = Some t ->
  flux s col !! i = Some qi ->
  flux s col !! (i - 1)%nat = Some qi1 ->
  diffuse s col !! i = Some (t - timestep_duration_is s * (qi - qi1) / dz s).
Proof.
  intros Hi HN Ht Hq Hq1. unfold diffuse, put_interior.
  destruct col as [|t0 col]; [simpl in HN; lia|].
  destruct i as [|j]; [lia|]. simpl in *.
  rewrite Nat.sub_0_r in Hq1.
  rewrite lookup_app_l.
  2:{ rewrite length_zip_with, length_interior, length_diff, length_flux.
      simpl. lia. }
  rewrite lookup_zip_with. unfold interior. simpl.
  rewrite lookup_take_lt by lia. rewrite drop_0, Ht. simpl.
  by rewrite (lookup_diff _ _ _ _ Hq1 Hq).
Qed.

Lemma lookup_diffuse_bottom s col :
  (2 <= length col)%nat ->
  diffuse s col !! (length col - 1)%nat = col !! (length col - 1)%nat.
Proof.
  intros HN. unfold diffuse, put_interior.
  set (v := zip_with _ _ _).
  assert (Hv : length v = (length col - 2)%nat).
  { unfold v. rewrite length_zip_with, length_interior, length_diff, length_flux. lia. }
  destruct col as [|t0 col]; [simpl in HN; lia|].
  simpl in *. rewrite Nat.sub_0_r.
  destruct (length col) as [|n] eqn:Hlen; [lia|]. simpl.
  rewrite lookup_app_r by lia. rewrite lookup_drop. f_equal. lia.
Qed.

End Diffusion.


Section Step.
Context {F : Type} `{Float F}.
Local Open Scope float_scope.
Implicit Types (s : state F) (col : list F).

(** The proofs below do not depend on which node is the active one:
    they start by abstracting the two indices. *)
Ltac any_node :=
  generalize 500%nat; intros x; generalize 400%nat; intros y.

Lemma set_temp_id s : set_temp (temp s) s = s.
Proof. by destruct s. Qed.

(** The first statement of [run_one_step]: the conditional reseeding. *)
Lemma reseeding_Ok s s1 :
  (if (current_timestep s =? 0)%nat
   then assign_column 500 400 (reseed s) s else Ok s) = Ok s1 ->
  is_Some (column (temp s) 500 400) ->
  exists col, entering s = Some col /\
              s1 = set_temp (put_column (temp s) 500 400 col) s.
Proof.
  unfold entering, assign_column. any_node. intros Hs [col0 Hcol0].
  rewrite Hcol0 in *. simpl.
  destruct (current_timestep s =? 0)%nat.
  - destruct (length (reseed s) =? length col0)%nat.
    + eexists; split; [done|]. congruence.
    + destruct (reseed s) as [|v0 [|? ?]]; try discriminate.
      eexists; split; [done|]. congruence.
  - exists col0. split; [done|].
    rewrite (put_column_id _ _ _ _ Hcol0), set_temp_id. congruence.
Qed.

Lemma run_one_step_Ok s s' :
  run_one_step s = Ok s' ->
  exists t0 rest v fcol,
    entering s = Some (t0 :: rest) /\
    Ts s !! current_timestep s = Some v /\
    column (frostcrackA s) 500 400 = Some fcol /\
    length fcol = S (length rest) /\
    let col := diffuse s (v :: rest) in
    s' = set_xy 500 400
           (set_frostcrackA (put_column (frostcrackA s) 500 400 (accumulate fcol col))
              (set_clock (current_time s + timestep_duration_is s)
                 (S (current_timestep s))
                 (set_temp (put_column (temp s) 500 400 col) (set_Ts_ini v s)))).
Proof.
  pose proof (reseeding_Ok s) as Hreseed. revert Hreseed.
  unfold run_one_step, entering. any_node. intros Hreseed.
  destruct (if (current_timestep s =? 0)%nat then _ else _) as [s1|e s1] eqn:H1;
    simpl; [|discriminate].
  destruct (column (temp s) x y) as [col0|] eqn:Hcol0.
  2:{ assert (s1 = s) as ->.
      { unfold assign_column in H1. rewrite Hcol0 in H1.
        destruct (current_timestep s =? 0)%nat; congruence. }
      destruct (Ts s !! current_timestep s); [|discriminate].
      unfold assign_top. simpl. rewrite Hcol0. discriminate. }
  destruct (Hreseed _ eq_refl) as (col & Hent & ->); [done|].
  simpl in Hent. simpl.
  destruct (Ts s !! current_timestep s) as [v|]; [|discriminate].
  unfold assign_top. simpl.
  rewrite column_put_same by (by rewrite Hcol0).
  destruct col as [|t0 rest]; [discriminate|]. simpl.
  repeat (rewrite ?put_column_twice;
          rewrite ?column_put_same by (by rewrite Hcol0); cbn beta iota).
  destruct (column (frostcrackA s) x y) as [fcol|]; [|discriminate].
  rewrite length_diffuse.
  destruct (Nat.eqb_spec (length (v :: rest)) (length fcol)) as [Hlen|];
    [|discriminate].
  intros [= <-]. exists t0, rest, v, fcol. done.
Qed.

(** What a step leaves alone, whether it returns or raises. *)
Lemma run_one_step_static s :
  let s' := final (run_one_step s) in
  Ts s' = Ts s /\ Ts_org s' = Ts_org s /\ depth s' = depth s /\
  frostcrackHR s' = frostcrackHR s.
Proof.
  unfold run_one_step, assign_column, assign_top. any_node.
  repeat (case_match; simpl; try done).
Qed.

Lemma run_one_step_frame s r c :
  (r, c) <> (500, 400)%nat ->
  let s' := final (run_one_step s) in
  column (temp s') r c = column (temp s) r c /\
  column (frostcrackA s') r c = column (frostcrackA s) r c.
Proof.
  unfold run_one_step, assign_column, assign_top. any_node. intros Hne.
  repeat (case_match; simpl; try done);
    rewrite ?column_put_other by done; done.
Qed.

Lemma run_one_step_Raise_frost s e s' :
  run_one_step s = Raise e s' -> frostcrackA s' = frostcrackA s.
Proof.
  unfold run_one_step, assign_column, assign_top. any_node.
  repeat (case_match; simpl; try done); by intros [= _ <-].
Qed.

Lemma run_one_step_completed s :
  current_timestep s = length (Ts s) -> Ts s <> [] ->
  run_one_step s = Raise IndexError s.
Proof.
  intros Hk Hne. unfold run_one_step. any_node.
  destruct (Nat.eqb_spec (current_timestep s) 0) as [H0|_].
  { destruct (Ts s); [done|]. simpl in Hk. lia. }
  simpl. rewrite (proj2 (lookup_ge_None (Ts s) (current_timestep s))) by lia.
  done.
Qed.
End Step.


Section Constructor.
Context {F : Type} `{Float F}.
Local Open Scope float_scope.
Implicit Types (s : state F) (a : init_args F).

Lemma from_option_Ok {A} e (o : option A) v :
  from_option e o = Ok v -> o = Some v.
Proof. destruct o; simpl; [congruence|discriminate]. Qed.

Lemma setup_grid_Ok a elev Tele :
  setup_grid a = Ok (elev, Tele) ->
  arg_use_dem a = true /\
  fill_gaps (arg_dem_data a) !! 0%nat = Some elev /\
  Tele = mean (concat (concat (fill_gaps (arg_dem_data a)))).
Proof.
  unfold setup_grid. destruct (arg_use_dem a); [|discriminate].
  destruct (fill_gaps (arg_dem_data a) !! 0%nat); simpl; [|discriminate].
  by intros [= <- <-].
Qed.

Lemma init_Ok a s :
  init a = Ok s ->
  exists elev Tele Torg t0 tnew Tnew dz_ should is_,
    setup_grid a = Ok (elev, Tele) /\
    load_netcdf a = Ok (Torg, t0, tnew, Tnew) /\
    set_steps a tnew = Ok (dz_, should, is_) /\
    (should >? is_) = true /\
    (0 <= arg_num_nodes a)%Z /\
    let n := Z.to_nat (arg_num_nodes a) in
    let Ts_ini_ := mean Tnew in
    let depth_ := linspace (lit 0) (arg_profile_depth a) n in
    let temp_ :=
      zip_with (zip_with (zip_with fadd))
        (map2 (replicate n)
           (map2 (fun e => Ts_ini_ + arg_temp_lapse_rate a * (e - Tele)) elev))
        (replicate (length elev)
           (replicate (length (default [] (elev !! 0%nat)))
              ((fun d => arg_geotherm a * d) <$> depth_))) in
    s = {| grid_rows := length elev;
           grid_cols := length (default [] (elev !! 0%nat));
           elevation := elev; T_ele := Tele; Ts_org := Torg;
           t_org_start := t0; Ts := Tnew; time := tnew; dz := dz_;
           timestep_duration_should := should;
           timestep_duration_is := is_;
           temp_lapse_rate := arg_temp_lapse_rate a; Ts_ini := Ts_ini_;
           Ts0_ele := map2 (replicate n)
             (map2 (fun e => Ts_ini_ + arg_temp_lapse_rate a * (e - Tele)) elev);
           depth := depth_; temp := temp_;
           frostcrackA := map3 (fun _ => lit 0) temp_;
           frostcrackHR := map3 (fun _ => lit 0) temp_;
           geotherm := arg_geotherm a;
           thermal_diffusivity := arg_thermal_diffusivity a;
           num_nodes := arg_num_nodes a;
           current_time := lit 0; current_timestep := 0;
           max_act_layer_depth := lit 0;
           self_x := None; self_y := None |}.
Proof.
  unfold init.
  destruct (setup_grid a) as [[elev Tele]|e u] eqn:Hg; simpl; [|discriminate].
  destruct (load_netcdf a) as [[[[Torg t0] tnew] Tnew]|e u] eqn:Hn; simpl;
    [|discriminate].
  destruct (set_steps a tnew) as [[[dz_ should] is_]|e u] eqn:Hs; simpl;
    [|discriminate].
  destruct (should >? is_) eqn:Hgt; simpl; [|discriminate].
  destruct (Z.ltb_spec (arg_num_nodes a) 0); [discriminate|].
  intros [= <-]. exists elev, Tele, Torg, t0, tnew, Tnew, dz_, should, is_.
  repeat split; done.
Qed.

Lemma set_steps_Ok a tnew dz_ should is_ :
  set_steps a tnew = Ok (dz_, should, is_) ->
  arg_num_nodes a <> 1%Z /\
  dz_ = arg_profile_depth a / of_Z (arg_num_nodes a - 1) /\
  should = dz_ * dz_ / (lit 2 * arg_thermal_diffusivity a) /\
  exists t1 t0, tnew !! 1%nat = Some t1 /\ tnew !! 0%nat = Some t0 /\
                is_ = t1 - t0.
Proof.
  unfold set_steps.
  destruct (Z.eqb_spec (arg_num_nodes a - 1) 0); [discriminate|].
  destruct (lit 2 * arg_thermal_diffusivity a =? lit 0); [discriminate|].
  destruct (tnew !! 1%nat) as [t1|]; simpl; [|discriminate].
  destruct (tnew !! 0%nat) as [t0|]; simpl; [|discriminate].
  intros [= <- <- <-]. split; [lia|]. repeat split. by exists t1, t0.
Qed.

Lemma load_netcdf_Ok a Torg t0 tnew Tnew :
  load_netcdf a = Ok (Torg, t0, tnew, Tnew) ->
  Torg = (fun v => v - lit 273.15) <$> arg_nc_ts a /\
  arg_nc_time a !! 0%nat = Some t0 /\
  (exists t_last, tnew = arange (lit 0) t_last (lit 3600)) /\
  length Tnew = length tnew.
Proof.
  unfold load_netcdf.
  destruct (arg_nc_time a !! 0%nat) as [t0'|]; simpl; [|discriminate].
  destruct (last _) as [t_last|]; simpl; [|discriminate].
  destruct (interp _ _ _) as [Tn|] eqn:Hint; simpl; [|discriminate].
  intros [= <- <- <- <-]. repeat split; [by eexists|].
  unfold interp in Hint. destruct (_ <$> arg_nc_time a); [discriminate|].
  destruct (_ =? _)%nat; [|discriminate].
  symmetry. by eapply length_mapM.
Qed.

(** A constructed object has at least two forcing values, one per
    sample of its time axis, and has made no step. *)
Lemma init_series a s :
  init a = Ok s ->
  (2 <= length (Ts s))%nat /\ length (Ts s) = length (time s) /\
  current_timestep s = 0%nat.
Proof.
  intros Hinit.
  destruct (init_Ok _ _ Hinit)
    as (elev & Tele & Torg & t0 & tnew & Tnew & dz_ & should & is_ &
        Hg & Hn & Hs & Hgt & Hnn & ->).
  cbn [Ts time current_timestep].
  destruct (load_netcdf_Ok _ _ _ _ _ Hn) as (_ & _ & _ & Hlen).
  destruct (set_steps_Ok _ _ _ _ _ Hs) as (_ & _ & _ & t1 & t0' & H1 & _).
  apply lookup_lt_Some in H1. rewrite Hlen. lia.
Qed.

End Constructor.

(** ** The diffusion step *)

Section DiffusionStep.
Context {F : Type} `{Float F}.
Local Open Scope float_scope.
Implicit Types (s : state F) (col : list F).

Lemma entering_later s :
  current_timestep s <> 0%nat -> entering s = column (temp s) 500 400.
Proof.
  intros Hk. unfold entering.
  destruct (column (temp s) 500 400); [|done]. simpl.
  by destruct (Nat.eqb_spec (current_timestep s) 0).
Qed.

Lemma entering_first s col :
  current_timestep s = 0%nat ->
  column (temp s) 500 400 = Some col ->
  length (depth s) = length col ->
  entering s = Some (reseed s).
Proof.
  intros Hk Hcol Hlen. unfold entering. rewrite Hcol, Hk. simpl.
  unfold reseed at 1. rewrite length_fmap, Hlen, Nat.eqb_refl. done.
Qed.

Lemma column_after_step s s' :
  run_one_step s = Ok s' ->
  exists t0 rest v,
    entering s = Some (t0 :: rest) /\
    Ts s !! current_timestep s = Some v /\
    column (temp s') 500 400 = Some (diffuse s (v :: rest)).
Proof.
  intros Hstep.
  destruct (run_one_step_Ok _ _ Hstep)
    as (t0 & rest & v & fcol & Hent & Hv & Hf & Hlen & ->).
  exists t0, rest, v. repeat split; [done..|].
  cbn [temp set_xy set_frostcrackA set_clock set_temp].
  apply column_put_same.
  unfold entering in Hent. destruct (column (temp s) 500 400); [done|discriminate].
Qed.

(** C3.  On the column [col] that enters it (the stored column of the
    active node, or the reseeded one at the first step), a returning
    step writes [T = col] with [T[0]] set to the forcing value, takes the
    fluxes [q[i] = -thermal_diffusivity * (T[i+1] - T[i]) / dz] for
    [i = 0..N-2], stores [T[i] - dt * (q[i] - q[i-1]) / dz] at every
    interior sample [i = 1..N-2], and leaves the last sample as it was
    in [col]. *)
Theorem diffusion_step s s' :
  run_one_step s = Ok s' ->
  exists col v T',
    entering s = Some col /\
    (current_timestep s <> 0%nat -> column (temp s) 500 400 = Some col) /\
    Ts s !! current_timestep s = Some v /\
    column (temp s') 500 400 = Some T' /\
    let N := length col in
    let T := <[0%nat := v]> col in
    let q := flux s T in
    (1 <= N)%nat /\ length T' = N /\ length q = (N - 1)%nat /\
    T' !! 0%nat = Some v /\
    (forall i a b, T !! i = Some a -> T !! S i = Some b ->
       q !! i = Some (- thermal_diffusivity s * (b - a) / dz s)) /\
    (forall i t qi qi1, (1 <= i)%nat -> (i + 1 < N)%nat ->
       T !! i = Some t -> q !! i = Some qi -> q !! (i - 1)%nat = Some qi1 ->
       T' !! i = Some (t - timestep_duration_is s * (qi - qi1) / dz s)) /\
    ((2 <= N)%nat -> T' !! (N - 1)%nat = col !! (N - 1)%nat).
Proof.
  intros Hstep.
  destruct (column_after_step _ _ Hstep) as (t0 & rest & v & Hent & Hv & HT').
  exists (t0 :: rest), v, (diffuse s (v :: rest)).
  split; [done|]. split.
  { intros Hk. by rewrite <- entering_later. }
  split; [done|]. split; [done|].
  cbn zeta. change (<[0%nat:=v]> (t0 :: rest)) with (v :: rest).
  split; [simpl; lia|].
  split; [by rewrite length_diffuse|].
  split; [by rewrite length_flux|].
  split; [by rewrite lookup_diffuse_top|].
  split; [by apply lookup_flux|].
  split.
  - intros i t qi qi1 Hi HN. apply lookup_diffuse_interior; [done|].
    simpl in *. lia.
  - intros HN. change (length (t0 :: rest)) with (length (v :: rest)).
    rewrite lookup_diffuse_bottom by done. simpl in *.
    destruct (length rest) eqn:E; [lia|]. done.
Qed.

End DiffusionStep.

Section Boundary.
Context {F : Type} `{Float F}.
Local Open Scope float_scope.
Implicit Types (s : state F) (col : list F).

(** C4.  A step called while [current_timestep = k] returns with
    [temp[500, 400, 0]] equal to the forcing value [Ts[k]] itself; the
    forcing series is not changed and the step index becomes [k + 1]. *)
Theorem boundary_overwrite s s' k :
  current_timestep s = k ->
  run_one_step s = Ok s' ->
  is_Some (Ts s !! k) /\
  (column (temp s') 500 400 ≫= (.!! 0%nat)) = Ts s !! k /\
  Ts s' = Ts s /\ current_timestep s' = S k.
Proof.
  intros <- Hstep.
  destruct (run_one_step_Ok _ _ Hstep)
    as (t0 & rest & v & fcol & Hent & Hv & Hf & Hlen & ->).
  assert (Hcol : is_Some (column (temp s) 500 400)).
  { unfold entering in Hent. destruct (column (temp s) 500 400); [done|discriminate]. }
  cbn [temp set_xy set_frostcrackA set_clock set_temp Ts current_timestep set_Ts_ini].
  rewrite column_put_same by done. rewrite Hv. cbn [mbind option_bind].
  by rewrite lookup_diffuse_top.
Qed.
End Boundary.

(** ** Frame and driver loop *)

Section Driver.
Context {F : Type} `{Float F}.
Local Open Scope float_scope.
Implicit Types (s : state F) (col : list F) (o : op) (os : list op).

Lemma exec_static o s :
  let s' := final (exec o s) in
  Ts s' = Ts s /\ Ts_org s' = Ts_org s /\ depth s' = depth s /\
  frostcrackHR s' = frostcrackHR s.
Proof. destruct o; simpl; auto using run_one_step_static. Qed.

Lemma exec_frame o s r c :
  (r, c) <> (500, 400)%nat ->
  let s' := final (exec o s) in
  column (temp s') r c = column (temp s) r c /\
  column (frostcrackA s') r c = column (frostcrackA s) r c.
Proof. intros Hne. destruct o; simpl; auto using run_one_step_frame. Qed.

(** C9.  No sequence of calls changes [frostcrackHR], and none changes
    the [temp] or [frostcrackA] column of a node other than
    [(500, 400)]. *)
Theorem single_node_frame s os :
  frostcrackHR (exec_all os s) = frostcrackHR s /\
  forall r c, (r, c) <> (500, 400)%nat ->
    column (temp (exec_all os s)) r c = column (temp s) r c /\
    column (frostcrackA (exec_all os s)) r c = column (frostcrackA s) r c.
Proof.
  unfold exec_all. revert s. induction os as [|o os IH]; intros s; [done|].
  simpl. destruct (IH (final (exec o s))) as [HHR Hcols].
  destruct (exec_static o s) as (_ & _ & _ & HHR1). split; [congruence|].
  intros r c Hne. destruct (Hcols r c Hne) as [-> ->].
  by apply exec_frame.
Qed.

Lemma run_one_step_clock s s' :
  run_one_step s = Ok s' ->
  current_timestep s' = S (current_timestep s) /\ Ts s' = Ts s /\
  (current_timestep s < length (Ts s))%nat.
Proof.
  intros Hstep.
  destruct (run_one_step_Ok _ _ Hstep)
    as (t0 & rest & v & fcol & Hent & Hv & Hf & Hlen & ->).
  repeat split. by eapply lookup_lt_Some.
Qed.

Lemma driver_terminates fuel s :
  (length (Ts s) - current_timestep s <= fuel)%nat ->
  exists r, driver fuel s = Some r /\
    forall s', r = Ok s' ->
      Ts s' = Ts s /\
      ((current_timestep s <= length (Ts s))%nat ->
       current_timestep s' = length (Ts s)).
Proof.
  revert s. induction fuel as [|fuel IH]; intros s Hfuel; simpl.
  - destruct (Nat.ltb_spec (current_timestep s) (length (Ts s))); [lia|].
    eexists; split; [done|]. intros s' [= <-]. split; [done|lia].
  - destruct (Nat.ltb_spec (current_timestep s) (length (Ts s))) as [Hlt|Hge].
    + destruct (run_one_step s) as [s1|e s1] eqn:Hstep.
      * destruct (run_one_step_clock _ _ Hstep) as (Hk & HTs & _).
        destruct (IH s1) as (r & Hr & Hfin); [rewrite Hk, HTs; lia|].
        exists r. split; [done|]. intros s' ->.
        destruct (Hfin s' eq_refl) as [HTs' Hk']. split; [congruence|].
        intros _. rewrite <- HTs. apply Hk'. rewrite Hk, HTs. lia.
      * eexists; split; [done|]. discriminate.
    + eexists; split; [done|]. intros s' [= <-]. split; [done|lia].
Qed.

Lemma completed_stays s n :
  current_timestep s = length (Ts s) -> Ts s <> [] ->
  exec_all (replicate n Run_one_step) s = s.
Proof.
  intros Hk Hne. unfold exec_all. induction n as [|n IH]; [done|].
  simpl. by rewrite (run_one_step_completed _ Hk Hne).
Qed.

(** C7.  The loop of the notebook calls [run_one_step] as long as
    [current_timestep < len(Ts)] and stops after [len(Ts) -
    current_timestep] iterations at the latest.  When it ends without an
    exception [current_timestep = len(Ts)]; from then on every call of
    [run_one_step] raises (the lookup [Ts[current_timestep]] is out of
    range: IndexError) and leaves the object as it is. *)
Theorem driver_completes s :
  Ts s <> [] ->
  (current_timestep s <= length (Ts s))%nat ->
  (forall fuel, (current_timestep s < length (Ts s))%nat ->
     driver (S fuel) s =
     match run_one_step s with
     | Ok s' => driver fuel s'
     | Raise e s' => Some (Raise e s')
     end) /\
  exists r, driver (length (Ts s) - current_timestep s) s = Some r /\
    forall s', r = Ok s' ->
      current_timestep s' = length (Ts s') /\
      driver 0 s' = Some (Ok s') /\
      run_one_step s' = Raise IndexError s' /\
      forall n, exec_all (replicate n Run_one_step) s' = s'.
Proof.
  intros Hne Hle. split.
  - intros fuel Hlt. simpl.
    by destruct (Nat.ltb_spec (current_timestep s) (length (Ts s))); [|lia].
  - destruct (driver_terminates (length (Ts s) - current_timestep s) s)
      as (r & Hr & Hfin); [lia|].
    exists r. split; [done|]. intros s' ->.
    destruct (Hfin s' eq_refl) as [HTs Hk]. specialize (Hk Hle).
    assert (Hk' : current_timestep s' = length (Ts s')) by congruence.
    assert (Hne' : Ts s' <> []) by congruence.
    split; [done|]. split.
    { simpl. rewrite Hk'. by rewrite Nat.ltb_irrefl. }
    split; [by apply run_one_step_completed|].
    intros n. by apply completed_stays.
Qed.

End Driver.

(** ** The stability check *)

Section StabilityCheck.
Context {F : Type} `{Float F}.
Local Open Scope float_scope.
Implicit Types (s : state F) (a : init_args F).

(** C2.  When the constructor reaches the assertion,
    [timestep_duration_should] is the value of
    [dz * dz / (2 * thermal_diffusivity)] with
    [dz = profile_depth / (num_nodes - 1)], and [timestep_duration_is]
    is [time[1] - time[0]], each computed with the arithmetic of the
    program.  If the comparison [should > is] of the assertion is false
    (for numbers: [should <= is]) the constructor raises there and no
    object exists; if it is true the constructor does not raise there.
    Every object that is built passed the comparison and has made no
    step.  This holds for any arithmetic. *)
Theorem stability_check a :
  (forall elev Tele Torg t0 tnew Tnew dz_ should is_,
     setup_grid a = Ok (elev, Tele) ->
     load_netcdf a = Ok (Torg, t0, tnew, Tnew) ->
     set_steps a tnew = Ok (dz_, should, is_) ->
     dz_ = arg_profile_depth a / of_Z (arg_num_nodes a - 1) /\
     should = dz_ * dz_ / (lit 2 * arg_thermal_diffusivity a) /\
     (exists t1 t0', tnew !! 1%nat = Some t1 /\ tnew !! 0%nat = Some t0' /\
                     is_ = t1 - t0') /\
     ((should >? is_) = false -> init a = Raise AssertionError tt) /\
     ((should >? is_) = true -> init a <> Raise AssertionError tt)) /\
  (forall s, init a = Ok s ->
     (timestep_duration_should s >? timestep_duration_is s) = true /\
     dz s = arg_profile_depth a / of_Z (arg_num_nodes a - 1) /\
     timestep_duration_should s
     = dz s * dz s / (lit 2 * thermal_diffusivity s) /\
     (exists t1 t0', time s !! 1%nat = Some t1 /\ time s !! 0%nat = Some t0' /\
                     timestep_duration_is s = t1 - t0') /\
     current_timestep s = 0%nat).
Proof.
  split.
  - intros elev Tele Torg t0 tnew Tnew dz_ should is_ Hg Hn Hs.
    destruct (set_steps_Ok _ _ _ _ _ Hs)
      as (_ & Hdz & Hsh & t1 & t0' & H1 & H0 & His).
    split; [done|]. split; [done|].
    split; [by exists t1, t0'|].
    unfold init. rewrite Hg. simpl. rewrite Hn. simpl. rewrite Hs. simpl.
    split.
    + intros Hle. by rewrite Hle.
    + intros Hgt. rewrite Hgt. simpl.
      destruct (arg_num_nodes a <? 0)%Z; discriminate.
  - intros s Hinit.
    destruct (init_Ok _ _ Hinit)
      as (elev & Tele & Torg & t0 & tnew & Tnew & dz_ & should & is_ &
          Hg & Hn & Hs & Hgt & Hnn & ->).
    cbn [timestep_duration_is timestep_duration_should dz thermal_diffusivity
         current_timestep time].
    destruct (set_steps_Ok _ _ _ _ _ Hs)
      as (_ & Hdz & Hsh & t1 & t0' & H1 & H0 & His).
    split; [done|]. split; [done|]. split; [done|].
    split; [by exists t1, t0'|done].
Qed.

End StabilityCheck.

(** ** Rational arithmetic *)

Section Stability.
Local Open Scope Q_scope.
Implicit Types (s : state Q) (a : init_args Q) (x y : Q).

Lemma Qltb_lt x y : Qltb x y = true <-> x < y.
Proof.
  unfold Qltb. rewrite negb_true_iff, <- not_true_iff_false, Qle_bool_iff.
  split; [apply Qnot_le_lt | apply Qlt_not_le].
Qed.

Lemma Qltb_ge x y : Qltb x y = false <-> y <= x.
Proof. unfold Qltb. by rewrite negb_false_iff, Qle_bool_iff. Qed.

Lemma fadd_Q x y : fadd x y == x + y.
Proof. apply Qred_correct. Qed.
Lemma fsub_Q x y : fsub x y == x - y.
Proof. apply Qred_correct. Qed.
Lemma fmul_Q x y : fmul x y == x * y.
Proof. apply Qred_correct. Qed.
Lemma fdiv_Q x y : fdiv x y == x / y.
Proof. apply Qred_correct. Qed.
Lemma lit_Q x : lit x == x.
Proof. apply Qred_correct. Qed.

Lemma frost_increment_pos : 0 < frost_increment (F:=Q).
Proof. reflexivity. Qed.

End Stability.

(** ** Frost index *)

Lemma lookup_map {A B} (f : A -> B) (l : list A) i :
  map f l !! i = f <$> l !! i.
Proof. exact (list_lookup_fmap f l i). Qed.

Lemma sample_map3 {A B} (f : A -> B) (a : list (list (list A))) r c i :
  sample (map3 f a) r c i = f <$> sample a r c i.
Proof.
  unfold sample, column, map3, map2. rewrite lookup_map.
  destruct (a !! r) as [row|]; simpl; [|done]. rewrite lookup_map.
  destruct (row !! c) as [col|]; simpl; [|done]. apply lookup_map.
Qed.

Section Accumulation.
Context {F : Type} `{Float F}.
Local Open Scope float_scope.
Implicit Types (s : state F) (col fcol : list F).

Lemma lookup_accumulate fcol col i f :
  length fcol = length col -> fcol !! i = Some f ->
  exists t, col !! i = Some t /\
    accumulate fcol col !! i
    = Some (if in_window t then f + frost_increment else f).
Proof.
  intros Hlen Hf.
  destruct (lookup_lt_is_Some_2 col i) as [t Ht].
  { rewrite <- Hlen. by eapply lookup_lt_Some. }
  exists t. split; [done|]. unfold accumulate.
  by rewrite lookup_zip_with, Hf, Ht.
Qed.

Lemma frost_step s s' i f :
  run_one_step s = Ok s' ->
  sample (frostcrackA s) 500 400 i = Some f ->
  exists t, sample (temp s') 500 400 i = Some t /\
    sample (frostcrackA s') 500 400 i
    = Some (if in_window t then f + frost_increment else f).
Proof.
  intros Hstep Hf.
  destruct (run_one_step_Ok _ _ Hstep)
    as (t0 & rest & v & fcol & Hent & Hv & Hfc & Hlen & ->).
  assert (Hcol : is_Some (column (temp s) 500 400)).
  { unfold entering in Hent. destruct (column (temp s) 500 400); [done|discriminate]. }
  unfold sample in *. rewrite Hfc in Hf. simpl in Hf.
  cbn [temp frostcrackA set_xy set_frostcrackA set_clock set_temp].
  rewrite !column_put_same by (done || by rewrite Hfc). simpl.
  apply lookup_accumulate; [|done]. by rewrite length_diffuse.
Qed.

Lemma init_frost_zero (a : init_args F) s r c i v :
  init a = Ok s ->
  sample (frostcrackA s) r c i = Some v \/ sample (frostcrackHR s) r c i = Some v ->
  v = lit 0.
Proof.
  intros Hinit.
  destruct (init_Ok _ _ Hinit)
    as (elev & Tele & Torg & t0 & tnew & Tnew & dz_ & should & is_ &
        Hg & Hn & Hs & Hgt & Hnn & ->).
  cbn [frostcrackA frostcrackHR]. rewrite !sample_map3.
  intros [Hv|Hv]; destruct (sample _ r c i); simpl in Hv; congruence.
Qed.

End Accumulation.

Section FrostIndex.
Local Open Scope Q_scope.
Implicit Types (s : state Q) (a : init_args Q) (x y : Q).

Lemma exec_frost_monotone o s r c i v :
  sample (frostcrackA s) r c i = Some v ->
  exists v', sample (frostcrackA (final (exec o s))) r c i = Some v' /\ v <= v'.
Proof.
  intros Hv.
  destruct o; simpl; try (exists v; split; [done|apply Qle_refl]).
  destruct (run_one_step s) as [s'|e s'] eqn:Hstep; simpl.
  - destruct (decide ((r, c) = (500, 400)%nat)) as [[= -> ->]|Hne].
    + destruct (frost_step _ _ _ _ Hstep Hv) as (t & _ & ->).
      eexists; split; [done|]. destruct (in_window t); [|apply Qle_refl].
      rewrite fadd_Q. rewrite <- (Qplus_0_r v) at 1.
      apply Qplus_le_r, Qlt_le_weak, frost_increment_pos.
    + pose proof (run_one_step_frame s r c Hne) as [_ Hfr].
      rewrite Hstep in Hfr. simpl in Hfr. unfold sample. rewrite Hfr.
      exists v; split; [done|apply Qle_refl].
  - rewrite (run_one_step_Raise_frost _ _ _ Hstep).
    exists v; split; [done|apply Qle_refl].
Qed.

(** C8.  Every entry of [frostcrackA] is zero after construction, and
    no sequence of calls makes an entry smaller. *)
Theorem frost_index_monotone :
  (forall a s r c i v,
     init a = Ok s -> sample (frostcrackA s) r c i = Some v -> v = 0) /\
  (forall s os r c i v,
     sample (frostcrackA s) r c i = Some v ->
     exists v', sample (frostcrackA (exec_all os s)) r c i = Some v' /\ v <= v').
Proof.
  split.
  - intros a s r c i v Hinit Hv.
    apply (init_frost_zero a s r c i v Hinit). by left.
  - intros s os. revert s. unfold exec_all.
    induction os as [|o os IH]; intros s r c i v Hv; simpl.
    + exists v; split; [done|apply Qle_refl].
    + destruct (exec_frost_monotone o s r c i v Hv) as (v1 & Hv1 & Hle1).
      destruct (IH _ r c i v1 Hv1) as (v' & Hv' & Hle').
      exists v'. split; [done|]. by eapply Qle_trans.
Qed.

Lemma arange_lookup (start stop step : Q) i t :
  arange start stop step !! i = Some t ->
  t = fadd start (fmul (of_nat i) step).
Proof.
  unfold arange. rewrite list_lookup_fmap.
  destruct (seq 0 _ !! i) as [j|] eqn:Hj; simpl; [|discriminate].
  apply lookup_seq in Hj as [-> _]. by intros [= <-].
Qed.

Lemma init_timestep a s :
  init a = Ok s ->
  timestep_duration_is s = 3600 /\
  timestep_duration_is s < timestep_duration_should s.
Proof.
  intros Hinit.
  destruct (init_Ok _ _ Hinit)
    as (elev & Tele & Torg & t0 & tnew & Tnew & dz_ & should & is_ &
        Hg & Hn & Hs & Hgt & Hnn & ->).
  cbn [timestep_duration_is timestep_duration_should].
  destruct (load_netcdf_Ok _ _ _ _ _ Hn) as (_ & _ & (t_last & ->) & _).
  destruct (set_steps_Ok _ _ _ _ _ Hs) as (_ & _ & _ & t1 & t0' & H1 & H0 & ->).
  apply arange_lookup in H1, H0. subst t1 t0'.
  split; [reflexivity|]. by apply Qltb_lt.
Qed.

(** C6, as stated, fails: with [num_nodes = 0] the constructor returns
    an object. *)
Lemma configuration_error_counterexample :
  ~ (forall a : init_args Q,
       (arg_num_nodes a < 2)%Z \/ arg_profile_depth a <= 0 ->
       is_Ok (init a) = false).
Proof.
  intros Hall. specialize (Hall no_nodes_args (or_introl eq_refl)).
  vm_compute in Hall. discriminate.
Qed.

(** C6, amended.  The constructor raises, and returns no object, when
    [num_nodes = 1], when [num_nodes < 0] and when [profile_depth = 0]. *)
Theorem invalid_configuration_fails a :
  arg_num_nodes a = 1%Z \/ (arg_num_nodes a < 0)%Z \/ arg_profile_depth a == 0 ->
  exists e, init a = Raise e tt.
Proof.
  intros Hbad. destruct (init a) as [s|e []] eqn:Hinit; [exfalso|by exists e].
  destruct (init_timestep _ _ Hinit) as [His Hlt].
  destruct (init_Ok _ _ Hinit)
    as (elev & Tele & Torg & t0 & tnew & Tnew & dz_ & should & is_ &
        Hg & Hn & Hs & Hgt & Hnn & ->).
  cbn [timestep_duration_is timestep_duration_should] in *.
  destruct (set_steps_Ok _ _ _ _ _ Hs) as (Hn1 & Hdz & Hsh & _).
  destruct Hbad as [?|[?|Hpd]]; [done|lia|].
  rewrite Hsh, His in Hlt. rewrite fdiv_Q, fmul_Q, Hdz, fdiv_Q, Hpd in Hlt.
  revert Hlt. unfold Qdiv. rewrite !Qmult_0_l. discriminate.
Qed.

End FrostIndex.

(** ** The initial profile *)

Section Linspace.
Context {F : Type} `{Float F}.
Local Open Scope float_scope.
Implicit Types (s : state F) (a : init_args F).

Lemma length_linspace (start stop : F) n : length (linspace start stop n) = n.
Proof.
  unfold linspace.
  assert (Hy : forall f : F -> F,
            length ((fun v => v + start) <$> (f <$> (of_nat <$> seq 0 n))) = n).
  { intros f. by rewrite !length_fmap, length_seq. }
  destruct (1 <? n)%nat; rewrite ?length_insert;
    destruct (0 <? n - 1)%nat; try destruct (_ =? _); apply Hy.
Qed.

Lemma linspace_last (start stop : F) n :
  (2 <= n)%nat -> linspace start stop n !! (n - 1)%nat = Some stop.
Proof.
  intros Hn. unfold linspace.
  destruct (Nat.ltb_spec 1 n); [|lia].
  apply list_lookup_insert_eq.
  destruct (0 <? n - 1)%nat; try destruct (_ =? _);
    rewrite !length_fmap, length_seq; lia.
Qed.

Lemma linspace_inner (start stop : F) n i :
  (i + 1 < n)%nat ->
  linspace start stop n !! i =
  Some (let step := (stop - start) / of_nat (n - 1) in
        if step =? lit 0
        then of_nat i / of_nat (n - 1) * (stop - start) + start
        else of_nat i * step + start).
Proof.
  intros Hi. unfold linspace.
  destruct (Nat.ltb_spec 1 n); [|lia].
  rewrite list_lookup_insert_ne by lia.
  destruct (Nat.ltb_spec 0 (n - 1)); [|lia]. cbn zeta.
  destruct (_ =? _); rewrite !list_lookup_fmap, lookup_seq_lt by lia; done.
Qed.

Lemma init_column a s r c row e :
  init a = Ok s ->
  elevation s !! r = Some row -> row !! c = Some e ->
  (c < grid_cols s)%nat ->
  let n := Z.to_nat (arg_num_nodes a) in
  Ts_ini s = mean (Ts s) /\
  length (depth s) = n /\
  column (temp s) r c =
  Some (zip_with fadd
          (replicate n (Ts_ini s + temp_lapse_rate s * (e - T_ele s)))
          ((fun d => geotherm s * d) <$> depth s)).
Proof.
  intros Hinit.
  destruct (init_Ok _ _ Hinit)
    as (elev & Tele & Torg & t0 & tnew & Tnew & dz_ & should & is_ &
        Hg & Hn & Hs & Hgt & Hnn & ->).
  cbn [elevation grid_cols Ts_ini Ts depth temp temp_lapse_rate T_ele geotherm].
  intros Hrow He Hc. split; [done|]. split; [apply length_linspace|].
  unfold column, map2. rewrite lookup_zip_with, !lookup_map, Hrow. simpl.
  rewrite lookup_replicate_2 by (by eapply lookup_lt_Some). simpl.
  rewrite lookup_zip_with, !lookup_map, He. simpl.
  by rewrite lookup_replicate_2.
Qed.

Lemma init_column_inv a s r c col :
  init a = Ok s ->
  column (temp s) r c = Some col ->
  exists row e, elevation s !! r = Some row /\ row !! c = Some e /\
    (c < grid_cols s)%nat.
Proof.
  intros Hinit.
  destruct (init_Ok _ _ Hinit)
    as (elev & Tele & Torg & t0 & tnew & Tnew & dz_ & should & is_ &
        Hg & Hn & Hs & Hgt & Hnn & ->).
  cbn [elevation grid_cols temp].
  unfold column, map2. rewrite lookup_zip_with, !lookup_map.
  destruct (elev !! r) as [row|]; simpl; [|discriminate].
  destruct (replicate (length elev) _ !! r) as [grow|] eqn:Hgrow; simpl;
    [|discriminate].
  apply lookup_replicate in Hgrow as [-> _].
  rewrite lookup_zip_with, !lookup_map.
  destruct (row !! c) as [e|] eqn:He; simpl; [|discriminate].
  destruct (replicate _ _ !! c) as [g|] eqn:Hg'; simpl; [|discriminate].
  apply lookup_replicate in Hg' as [_ Hc]. intros _. by exists row, e.
Qed.

Lemma init_column_length a s r c col :
  init a = Ok s ->
  column (temp s) r c = Some col -> length (depth s) = length col.
Proof.
  intros Hinit Hcol.
  destruct (init_column_inv _ _ _ _ _ Hinit Hcol) as (row & e & Hrow & He & Hc).
  destruct (init_column a s r c row e Hinit Hrow He Hc) as (_ & Hlen & Hcol').
  rewrite Hcol in Hcol'. injection Hcol' as ->.
  rewrite length_zip_with, length_replicate, length_fmap. lia.
Qed.

End Linspace.

Section InitialProfile.
Local Open Scope Q_scope.
Implicit Types (s : state Q) (a : init_args Q) (x y : Q).

Lemma of_nat_Q n : of_nat (F:=Q) n == inject_Z (Z.of_nat n).
Proof. apply Qred_correct. Qed.

Lemma Qred_zero x : x == 0 -> Qred x = 0.
Proof. intros Hx. by rewrite (Qred_complete _ _ Hx). Qed.

(** C5.  In a constructed object [depth] has [num_nodes] samples,
    [depth[i] = i * dz] with [dz = profile_depth / (num_nodes - 1)],
    from [0] to [profile_depth].  The grid is the DEM's: [elevation] is
    band 0 of the gap-filled DEM, [grid_rows] and [grid_cols] are its
    numbers of rows and of columns, and [T_ele] is the mean of the
    gap-filled DEM.  [temp] has a column exactly at the nodes of that
    grid, and at every node the column has [num_nodes] samples,
    [temp[i] = surface_estimate + geotherm * depth[i]] with
    [surface_estimate = mean(Ts) + temp_lapse_rate * (elevation - T_ele)]. *)
Theorem initial_profile a s :
  init a = Ok s ->
  let N := Z.to_nat (arg_num_nodes a) in
  let dz_ := arg_profile_depth a / inject_Z (arg_num_nodes a - 1) in
  (0 <= arg_num_nodes a)%Z /\ arg_num_nodes a <> 1%Z /\
  dz s == dz_ /\
  length (depth s) = N /\
  (forall i d, depth s !! i = Some d -> d == inject_Z (Z.of_nat i) * dz_) /\
  ((2 <= N)%nat ->
     depth s !! 0%nat = Some 0 /\
     depth s !! (N - 1)%nat = Some (arg_profile_depth a)) /\
  (fill_gaps (arg_dem_data a) !! 0%nat = Some (elevation s) /\
   grid_rows s = length (elevation s) /\
   grid_cols s = length (default [] (elevation s !! 0%nat)) /\
   T_ele s = mean (concat (concat (fill_gaps (arg_dem_data a)))) /\
   geotherm s = arg_geotherm a /\
   temp_lapse_rate s = arg_temp_lapse_rate a) /\
  (forall r c col,
     column (temp s) r c = Some col ->
     exists row e, elevation s !! r = Some row /\ row !! c = Some e /\
       (c < grid_cols s)%nat) /\
  forall r c row e,
    elevation s !! r = Some row -> row !! c = Some e ->
    (c < grid_cols s)%nat ->
    let surface_estimate :=
      fadd (mean (Ts s)) (fmul (temp_lapse_rate s) (fsub e (T_ele s))) in
    exists col, column (temp s) r c = Some col /\ length col = N /\
      forall i d, depth s !! i = Some d ->
        col !! i = Some (fadd surface_estimate (fmul (geotherm s) d)).
Proof.
  intros Hinit N dz_.
  pose proof (init_Ok _ _ Hinit)
    as (elev & Tele & Torg & t0 & tnew & Tnew & dz' & should & is_ &
        Hg & Hn & Hs & Hgt & Hnn & Hseq).
  destruct (set_steps_Ok _ _ _ _ _ Hs) as (Hn1 & Hdz & _).
  assert (Hdepth : depth s = linspace (lit 0) (arg_profile_depth a) N)
    by (by rewrite Hseq).
  assert (Hdzs : dz s == dz_).
  { rewrite Hseq. cbn [dz]. rewrite Hdz. unfold of_Z. by rewrite fdiv_Q, lit_Q. }
  assert (HN : inject_Z (arg_num_nodes a - 1) == inject_Z (Z.of_nat (N - 1))
               \/ N = 0%nat).
  { destruct (decide (N = 0%nat)) as [|HN0]; [by right|left].
    f_equiv. unfold N in *. lia. }
  split; [done|]. split; [done|]. split; [done|].
  split; [rewrite Hdepth; apply length_linspace|].
  split; [|split; [|split; [|split]]].
  - intros i d. rewrite Hdepth. intros Hd.
    assert (Hi : (i < N)%nat).
    { apply lookup_lt_Some in Hd. by rewrite length_linspace in Hd. }
    destruct HN as [HN|HN]; [|lia].
    assert (Hne : ~ inject_Z (Z.of_nat (N - 1)) == 0).
    { rewrite <- HN. unfold Qeq. simpl. unfold N in *. lia. }
    unfold dz_. rewrite HN.
    destruct (decide (i = (N - 1)%nat)) as [->|Hlast].
    + rewrite linspace_last in Hd by lia. injection Hd as <-. by field.
    + rewrite linspace_inner in Hd by lia. injection Hd as <-. cbn zeta.
      match goal with |- context [if ?b then _ else _] => destruct b end;
        rewrite ?fadd_Q, ?fmul_Q, ?fdiv_Q, ?fsub_Q, ?fadd_Q, ?fmul_Q, ?fdiv_Q,
          ?fsub_Q, ?of_nat_Q, ?lit_Q; by field.
  - intros HN2. rewrite Hdepth. split; [|by apply linspace_last].
    rewrite linspace_inner by lia. f_equal. cbn zeta.
    match goal with |- context [if ?b then _ else _] => destruct b end;
      apply Qred_zero;
      rewrite ?fmul_Q, ?fdiv_Q, ?of_nat_Q, ?lit_Q; simpl; unfold Qdiv;
      rewrite ?Qmult_0_l; reflexivity.
  - destruct (setup_grid_Ok _ _ _ Hg) as (_ & Hband & HTele).
    rewrite Hseq. cbn [elevation grid_rows grid_cols T_ele geotherm
                       temp_lapse_rate]. done.
  - intros r c col. apply (init_column_inv a s r c col Hinit).
  - intros r c row e Hrow He Hc surface_estimate.
    destruct (init_column a s r c row e Hinit Hrow He Hc) as (HTs & Hlen & Hcol).
    eexists. split; [exact Hcol|]. split.
    { rewrite length_zip_with, length_replicate, length_fmap. fold N. lia. }
    intros i d Hd. rewrite lookup_zip_with.
    rewrite lookup_replicate_2.
    2:{ apply lookup_lt_Some in Hd. fold N in Hlen. lia. }
    simpl. rewrite list_lookup_fmap, Hd. simpl. unfold surface_estimate.
    by rewrite HTs.
Qed.

End InitialProfile.

(** ** The first step *)

Section Reseeding.
Context {F : Type} `{Float F}.
Local Open Scope float_scope.
Implicit Types (s : state F) (a : init_args F) (col : list F).

(** C10.  In a constructed object [Ts_org] is the raw series of the
    NetCDF file in degrees C, while the initial profile was built on
    [Ts_ini = mean(Ts)], the mean of the resampled series; every column
    of [temp] is as long as [depth].  On such an object, at
    [current_timestep = 0], the stored column of the active node has no
    influence on the step: replacing it by any other column gives the
    same result, and the step acts on the column
    [mean(Ts_org) + geotherm * depth[i]].  At any later step it acts on
    the stored column.  This holds for any arithmetic. *)
Theorem first_step_reseeds :
  (forall a s, init a = Ok s ->
     Ts_org s = (fun v => v - lit 273.15) <$> arg_nc_ts a /\
     Ts_ini s = mean (Ts s) /\
     current_timestep s = 0%nat /\
     forall r c col, column (temp s) r c = Some col ->
       length (depth s) = length col) /\
  (forall s col,
     column (temp s) 500 400 = Some col ->
     length (depth s) = length col ->
     let seed := (fun d => mean (Ts_org s) + geotherm s * d) <$> depth s in
     (current_timestep s = 0%nat ->
        (forall col', length col' = length col ->
           run_one_step (set_temp (put_column (temp s) 500 400 col') s)
           = run_one_step s) /\
        (forall s', run_one_step s = Ok s' ->
           exists v, Ts s !! 0%nat = Some v /\
             column (temp s') 500 400
             = Some (diffuse s (<[0%nat := v]> seed)) /\
             length seed = length col /\
             forall i d, depth s !! i = Some d ->
               seed !! i = Some (mean (Ts_org s) + geotherm s * d))) /\
     (current_timestep s <> 0%nat ->
        forall s', run_one_step s = Ok s' ->
          exists v, Ts s !! current_timestep s = Some v /\
            column (temp s') 500 400
            = Some (diffuse s (<[0%nat := v]> col)))).
Proof.
  split.
  { intros a s Hinit. split; [|split; [|split]].
    - destruct (init_Ok _ _ Hinit)
        as (elev & Tele & Torg & t0 & tnew & Tnew & dz_ & should & is_ &
            Hg & Hn & Hs & Hgt & Hnn & ->).
      cbn [Ts_org]. by destruct (load_netcdf_Ok _ _ _ _ _ Hn) as (-> & _).
    - destruct (init_Ok _ _ Hinit)
        as (elev & Tele & Torg & t0 & tnew & Tnew & dz_ & should & is_ &
            Hg & Hn & Hs & Hgt & Hnn & ->). done.
    - destruct (init_Ok _ _ Hinit)
        as (elev & Tele & Torg & t0 & tnew & Tnew & dz_ & should & is_ &
            Hg & Hn & Hs & Hgt & Hnn & ->). done.
    - intros r c col. apply (init_column_length a s r c col Hinit). }
  intros s col Hcol Hlen seed. split.
  - intros Hk. split.
    + intros col' Hlen'.
      assert (Hr : (length (reseed s) =? length col)%nat = true).
      { unfold reseed. rewrite length_fmap, Hlen. apply Nat.eqb_refl. }
      unfold run_one_step. cbn [current_timestep set_temp]. rewrite Hk.
      cbn [Nat.eqb]. unfold assign_column. cbn [temp set_temp].
      rewrite column_put_same by (by rewrite Hcol). rewrite Hcol.
      change (reseed (set_temp _ s)) with (reseed s).
      rewrite Hlen', Hr, put_column_twice. reflexivity.
    + intros s' Hstep.
      destruct (column_after_step _ _ Hstep) as (t0 & rest & v & Hent & Hv & HT').
      rewrite (entering_first _ _ Hk Hcol Hlen) in Hent. injection Hent as Hent.
      rewrite Hk in Hv. exists v. split; [done|].
      split; [rewrite HT'; change seed with (reseed s); by rewrite Hent|].
      split; [unfold seed; by rewrite length_fmap|].
      intros i d Hd. unfold seed. by rewrite list_lookup_fmap, Hd.
  - intros Hk s' Hstep.
    destruct (column_after_step _ _ Hstep) as (t0 & rest & v & Hent & Hv & HT').
    rewrite (entering_later _ Hk), Hcol in Hent. injection Hent as ->.
    exists v. done.
Qed.

End Reseeding.


(** ** The demo object is the constructed one *)

Section Built.
Context {F : Type} `{Float F}.
Local Open Scope float_scope.
Implicit Types (s : state F) (a : init_args F).

Lemma map_fixed {A} (f : A -> A) (l : list A) :
  Forall (fun x => f x = x) l -> map f l = l.
Proof. induction 1; simpl; congruence. Qed.

Lemma fill_gaps_no_gap (dem : list (list (list F))) :
  Forall (Forall (Forall (fun v => (v <? lit (-100)) = false))) dem ->
  fill_gaps dem = dem.
Proof.
  intros Hdem. unfold fill_gaps, map3, map2.
  apply map_fixed. eapply Forall_impl; [exact Hdem|]. intros band Hband.
  apply map_fixed. eapply Forall_impl; [exact Hband|]. intros row Hrow.
  apply map_fixed. eapply Forall_impl; [exact Hrow|]. intros v Hv. simpl.
  by rewrite Hv.
Qed.

Lemma init_from_stages a elev Tele Torg t0 tnew Tnew dz_ should is_ :
  setup_grid a = Ok (elev, Tele) ->
  load_netcdf a = Ok (Torg, t0, tnew, Tnew) ->
  set_steps a tnew = Ok (dz_, should, is_) ->
  (should >? is_) = true ->
  (0 <= arg_num_nodes a)%Z ->
  let n := Z.to_nat (arg_num_nodes a) in
  let Ts_ini_ := mean Tnew in
  let depth_ := linspace (lit 0) (arg_profile_depth a) n in
  let temp_ :=
    zip_with (zip_with (zip_with fadd))
      (map2 (replicate n)
         (map2 (fun e => Ts_ini_ + arg_temp_lapse_rate a * (e - Tele)) elev))
      (replicate (length elev)
         (replicate (length (default [] (elev !! 0%nat)))
            ((fun d => arg_geotherm a * d) <$> depth_))) in
  init a =
  Ok {| grid_rows := length elev;
        grid_cols := length (default [] (elev !! 0%nat));
        elevation := elev; T_ele := Tele; Ts_org := Torg;
        t_org_start := t0; Ts := Tnew; time := tnew; dz := dz_;
        timestep_duration_should := should;
        timestep_duration_is := is_;
        temp_lapse_rate := arg_temp_lapse_rate a; Ts_ini := Ts_ini_;
        Ts0_ele := map2 (replicate n)
          (map2 (fun e => Ts_ini_ + arg_temp_lapse_rate a * (e - Tele)) elev);
        depth := depth_; temp := temp_;
        frostcrackA := map3 (fun _ => lit 0) temp_;
        frostcrackHR := map3 (fun _ => lit 0) temp_;
        geotherm := arg_geotherm a;
        thermal_diffusivity := arg_thermal_diffusivity a;
        num_nodes := arg_num_nodes a;
        current_time := lit 0; current_timestep := 0;
        max_act_layer_depth := lit 0;
        self_x := None; self_y := None |}.
Proof.
  intros Hg Hn Hs Hgt Hnn. unfold init. rewrite Hg. simpl. rewrite Hn. simpl.
  rewrite Hs. simpl. rewrite Hgt. simpl.
  by destruct (Z.ltb_spec (arg_num_nodes a) 0); [lia|].
Qed.

End Built.

Section DemoBuilt.
Local Open Scope Q_scope.

Lemma map_replicate {A B} (f : A -> B) n x :
  map f (replicate n x) = replicate n (f x).
Proof. exact (fmap_replicate f n x). Qed.

Lemma sum_zeros (l : list Q) : Forall (fun v => v = 0) l -> sum l = 0.
Proof.
  intros Hl. destruct Hl as [|x l -> Hl]; [reflexivity|]. simpl.
  induction Hl as [|y l -> Hl IH]; [reflexivity|]. simpl. exact IH.
Qed.

Lemma mean_zeros (l : list Q) : Forall (fun v => v = 0) l -> mean l = 0.
Proof.
  intros Hl. unfold mean. rewrite (sum_zeros _ Hl). apply Qred_zero.
  unfold Qdiv. apply Qmult_0_l.
Qed.

Lemma demo_grid :
  setup_grid demo_args = Ok (replicate 501 (replicate 401 0), 0).
Proof.
  unfold setup_grid. cbn [demo_args arg_use_dem arg_dem_data].
  rewrite fill_gaps_no_gap.
  2:{ apply Forall_singleton. by do 2 apply Forall_replicate. }
  cbn [lookup list_lookup from_option mbind result_bind].
  rewrite mean_zeros; [done|].
  apply Forall_concat, Forall_concat, Forall_singleton.
  by do 2 apply Forall_replicate.
Qed.

Lemma demo_series :
  load_netcdf demo_args =
  Ok ([-5; -6], 0, [0; 3600; 7200], [-5; -16 # 3; -17 # 3]).
Proof. vm_compute. reflexivity. Qed.

Lemma demo_steps :
  set_steps demo_args [0; 3600; 7200] = Ok (1, 500000, 3600).
Proof. vm_compute. reflexivity. Qed.

Lemma demo_state_built : init demo_args = Ok demo_state.
Proof.
  rewrite (init_from_stages _ _ _ _ _ _ _ _ _ _ demo_grid demo_series demo_steps)
    by (reflexivity || discriminate).
  cbn zeta. cbn [demo_args arg_num_nodes arg_profile_depth arg_temp_lapse_rate
                 arg_geotherm arg_thermal_diffusivity].
  unfold map3, map2. rewrite !map_replicate, !length_replicate.
  assert (Hrow : default [] (replicate 501 (replicate 401 0) !! 0%nat)
                 = replicate 401 0).
  { by rewrite lookup_replicate_2 by lia. }
  rewrite Hrow, length_replicate, !zip_with_replicate, !map_replicate.
  unfold demo_state. f_equal.
Qed.

End DemoBuilt.

(** ** The demo run *)

Local Open Scope Q_scope.

(** A call that returns, returns its final state. *)
Lemma Ok_final {S} (r : result S S) : is_Ok r = true -> r = Ok (final r).
Proof. by destruct r. Qed.

Lemma Ok_value {S A} (d : A) (r : result S A) :
  is_Ok r = true -> r = Ok (value_or d r).
Proof. by destruct r. Qed.

Lemma demo_state_steps : run_one_step demo_state = Ok demo_state1.
Proof.
  refine (Ok_final (run_one_step demo_state) _). vm_compute. reflexivity.
Qed.

Lemma small_state_built : init small_args = Ok small_state.
Proof.
  refine (Ok_value demo_state (init small_args) _). vm_compute. reflexivity.
Qed.

(** C1, evaluated.  On the object built from [demo_args] the top sample
    is at -5 degrees C after the first step, inside the window, and its
    [frostcrackA] entry goes from 0 to [1/31536000]; with
    [timestep_duration_is = 3600] the value
    [timestep_duration_is / (3600*24*365)] is [1/8760]. *)
Theorem frost_increment_is_one_second :
  init demo_args = Ok demo_state /\
  run_one_step demo_state = Ok demo_state1 /\
  timestep_duration_is demo_state = 3600 /\
  sample (temp demo_state1) 500 400 0 = Some (-5) /\
  in_window (-5) = true /\
  sample (frostcrackA demo_state) 500 400 0 = Some 0 /\
  sample (frostcrackA demo_state1) 500 400 0 = Some (1 # 31536000) /\
  ~ 1 # 31536000 == 0 + timestep_duration_is demo_state / (3600 * 24 * 365).
Proof.
  split; [exact demo_state_built|]. split; [exact demo_state_steps|].
  split; [reflexivity|].
  split; [vm_compute; reflexivity|]. split; [reflexivity|].
  split; [vm_compute; reflexivity|]. split; [vm_compute; reflexivity|].
  vm_compute. discriminate.
Qed.

(** The first step of the demo run. *)
Lemma boundary_overwrite_witness :
  is_Some (Ts demo_state !! 0%nat) /\
  (column (temp demo_state1) 500 400 ≫= (.!! 0%nat)) = Ts demo_state !! 0%nat /\
  Ts demo_state1 = Ts demo_state /\ current_timestep demo_state1 = 1%nat.
Proof.
  exact (boundary_overwrite demo_state demo_state1 0%nat eq_refl demo_state_steps).
Defined.

(** The first step of the demo run acts on a column of three samples. *)
Lemma diffusion_step_witness :
  exists T', column (temp demo_state1) 500 400 = Some T' /\ length T' = 3%nat.
Proof.
  destruct (diffusion_step demo_state demo_state1 demo_state_steps)
    as (col & v & T' & Hent & _ & _ & HT' & _ & Hlen & _).
  exists T'. split; [exact HT'|].
  rewrite Hlen.
  assert (Hcol : entering demo_state = Some [-11 # 2; -219 # 40; -109 # 20])
    by (vm_compute; reflexivity).
  rewrite Hcol in Hent. by injection Hent as <-.
Defined.

(** The demo object: the raw series has mean -11/2, the resampled one
    -16/3; the first step starts from the column built on -11/2. *)
Lemma first_step_reseeds_witness :
  (Ts_org demo_state
   = (fun v => fsub v (lit 273.15)) <$> arg_nc_ts demo_args /\
   Ts_ini demo_state = mean (Ts demo_state)) /\
  (exists v, Ts demo_state !! 0%nat = Some v /\
     column (temp demo_state1) 500 400
     = Some (diffuse demo_state
               (<[0%nat := v]>
                  ((fun d => fadd (mean (Ts_org demo_state))
                               (fmul (geotherm demo_state) d))
                     <$> depth demo_state)))) /\
  (mean (Ts_org demo_state) = -11 # 2 /\ mean (Ts demo_state) = -16 # 3 /\
   (fun d => fadd (mean (Ts_org demo_state)) (fmul (geotherm demo_state) d))
     <$> depth demo_state = [-11 # 2; -219 # 40; -109 # 20] /\
   column (temp demo_state) 500 400 = Some [-16 # 3; -637 # 120; -317 # 60] /\
   column (temp demo_state1) 500 400 = Some [-5; -13683 # 2500; -109 # 20]).
Proof.
  assert (Hcol : column (temp demo_state) 500 400
                 = Some [-16 # 3; -637 # 120; -317 # 60])
    by (vm_compute; reflexivity).
  split; [|split].
  - pose proof (proj1 first_step_reseeds demo_args demo_state demo_state_built)
      as HA.
    exact (conj (proj1 HA) (proj1 (proj2 HA))).
  - pose proof (proj2 (proj1 (proj2 first_step_reseeds demo_state _ Hcol eq_refl)
                         eq_refl) demo_state1 demo_state_steps) as [v HB].
    exact (ex_intro _ v (conj (proj1 HB) (proj1 (proj2 HB)))).
  - split; [vm_compute; reflexivity|].
    split; [vm_compute; reflexivity|].
    split; [vm_compute; reflexivity|].
    split; [exact Hcol|vm_compute; reflexivity].
Defined.

(** Node [(0, 0)] of the demo run. *)
Lemma single_node_frame_witness :
  column (temp (exec_all [Run_one_step] demo_state)) 0 0
  = column (temp demo_state) 0 0 /\
  column (frostcrackA (exec_all [Run_one_step] demo_state)) 0 0
  = column (frostcrackA demo_state) 0 0.
Proof.
  apply (proj2 (single_node_frame demo_state [Run_one_step]) 0%nat 0%nat).
  discriminate.
Defined.

(** The loop on the demo object. *)
Lemma driver_completes_witness :
  exists r,
    driver (length (Ts demo_state) - current_timestep demo_state) demo_state
    = Some r /\
    forall s', r = Ok s' ->
      current_timestep s' = length (Ts s') /\
      driver 0 s' = Some (Ok s') /\
      run_one_step s' = Raise IndexError s' /\
      forall n, exec_all (replicate n Run_one_step) s' = s'.
Proof.
  apply (driver_completes demo_state); [discriminate | vm_compute; lia].
Defined.

(** The small object starts at zero; two steps of the demo run. *)
Lemma frost_index_monotone_witness :
  (forall r c i v, sample (frostcrackA small_state) r c i = Some v -> v = 0) /\
  exists v',
    sample (frostcrackA (exec_all [Run_one_step; Run_one_step] demo_state))
      500 400 0 = Some v' /\ 0 <= v'.
Proof.
  split.
  - intros r c i v.
    exact (proj1 frost_index_monotone small_args small_state r c i v
             small_state_built).
  - apply (proj2 frost_index_monotone demo_state). vm_compute. reflexivity.
Defined.

(** An unstable and a stable configuration. *)
Lemma stability_check_witness :
  init unstable_args = Raise AssertionError tt /\
  init small_args <> Raise AssertionError tt.
Proof.
  split.
  - refine (proj1 (proj2 (proj2 (proj2
      (proj1 (stability_check unstable_args) _ _ _ _ _ _ _ _ _
         eq_refl eq_refl eq_refl)))) _).
    vm_compute. reflexivity.
  - refine (proj2 (proj2 (proj2 (proj2
      (proj1 (stability_check small_args) _ _ _ _ _ _ _ _ _
         eq_refl eq_refl eq_refl)))) _).
    vm_compute. reflexivity.
Defined.

(** The object built from the two-level DEM. *)
Lemma sloped_state_built : init sloped_args = Ok sloped_state.
Proof.
  refine (Ok_value demo_state (init sloped_args) _). vm_compute. reflexivity.
Qed.

(** Its depths, its grid, and the column of node [(3, 7)], which lies at
    200 m under a mean elevation of 250 m. *)
Lemma initial_profile_witness :
  (depth sloped_state !! 0%nat = Some 0 /\
   depth sloped_state !! 2%nat = Some 2) /\
  (grid_rows sloped_state = 100%nat /\ grid_cols sloped_state = 120%nat /\
   T_ele sloped_state = 250 /\ mean (Ts sloped_state) = -16 # 3) /\
  (exists col, column (temp sloped_state) 3 7 = Some col /\ length col = 3%nat /\
     forall i d, depth sloped_state !! i = Some d ->
       col !! i
       = Some (fadd (fadd (mean (Ts sloped_state))
                       (fmul (temp_lapse_rate sloped_state)
                          (fsub 200 (T_ele sloped_state))))
                 (fmul (geotherm sloped_state) d))) /\
  column (temp sloped_state) 3 7 = Some [-151 # 30; -601 # 120; -299 # 60].
Proof.
  pose proof (initial_profile sloped_args sloped_state sloped_state_built)
    as (_ & _ & _ & _ & _ & Hends & _ & _ & Hnode).
  split; [apply Hends; vm_compute; lia|].
  split; [vm_compute; done|].
  split; [|vm_compute; reflexivity].
  refine (Hnode 3%nat 7%nat (replicate 120 200) 200 _ _ _);
    vm_compute; (reflexivity || lia).
Defined.

(** A single depth sample. *)
Lemma invalid_configuration_fails_witness :
  exists e, init one_node_args = Raise e tt.
Proof. apply invalid_configuration_fails. by left. Defined.

(** * Further properties of the code *)

(** ** Errors of the constructor, clock and configuration *)

Section Methods.
Context {F : Type} `{Float F}.
Local Open Scope float_scope.
Implicit Types (s : state F) (a : init_args F) (col : list F).

(** For a DEM without a value below -100 the gap filling changes
    nothing: the elevations are band 0 as read and [T_ele] is the mean
    of all cells. *)
Theorem gap_free_dem a band rest :
  arg_use_dem a = true ->
  arg_dem_data a = band :: rest ->
  Forall (Forall (Forall (fun v => (v <? lit (-100)) = false)))
    (arg_dem_data a) ->
  setup_grid a = Ok (band, mean (concat (concat (arg_dem_data a)))).
Proof.
  intros Hdem Hdata Hfree. unfold setup_grid.
  rewrite Hdem, (fill_gaps_no_gap _ Hfree), Hdata. done.
Qed.

(** With a NetCDF file whose time variable is empty the constructor
    raises IndexError once the grid is set up. *)
Theorem init_without_input a g :
  setup_grid a = Ok g ->
  arg_nc_time a = [] ->
  init a = Raise IndexError tt.
Proof.
  intros Hg Hnone. unfold init. rewrite Hg. destruct g as [elev Tele]. simpl.
  unfold load_netcdf. by rewrite Hnone.
Qed.

(** A returning step was called with [current_timestep < len(Ts)]; it
    adds one to [current_timestep] and [timestep_duration_is] to
    [current_time], leaves the forcing value it used in [Ts_ini] and
    sets [x, y] to [500, 400]. *)
Theorem step_advances_clock s s' :
  run_one_step s = Ok s' ->
  (current_timestep s < length (Ts s))%nat /\
  current_timestep s' = S (current_timestep s) /\
  current_time s' = current_time s + timestep_duration_is s /\
  Some (Ts_ini s') = Ts s !! current_timestep s /\
  self_x s' = Some 500%nat /\ self_y s' = Some 400%nat.
Proof.
  intros Hstep.
  destruct (run_one_step_Ok _ _ Hstep)
    as (t0 & rest & v & fcol & Hent & Hv & Hf & Hlen & ->).
  split; [by eapply lookup_lt_Some|]. by repeat split.
Qed.

(** On a grid that has no node [(500, 400)] every step raises
    IndexError; [temp], [frostcrackA] and the clock stay as they
    were. *)
Theorem step_off_grid s :
  column (temp s) 500 400 = None ->
  exists s', run_one_step s = Raise IndexError s' /\
    temp s' = temp s /\ frostcrackA s' = frostcrackA s /\
    current_timestep s' = current_timestep s /\
    current_time s' = current_time s.
Proof.
  unfold run_one_step, assign_column, assign_top.
  generalize 500%nat; intros x; generalize 400%nat; intros y. intros Hnone.
  rewrite Hnone.
  destruct (current_timestep s =? 0)%nat; simpl; [by eexists|].
  destruct (Ts s !! current_timestep s); simpl; [|by eexists].
  rewrite Hnone. by eexists.
Qed.

(** One call leaves the configuration alone. *)
Lemma exec_config o s :
  let s' := final (exec o s) in
  (Ts s', Ts_org s', time s', depth s', elevation s', T_ele s')
  = (Ts s, Ts_org s, time s, depth s, elevation s, T_ele s) /\
  (dz s', thermal_diffusivity s', geotherm s', temp_lapse_rate s',
   timestep_duration_is s', timestep_duration_should s', num_nodes s')
  = (dz s, thermal_diffusivity s, geotherm s, temp_lapse_rate s,
     timestep_duration_is s, timestep_duration_should s, num_nodes s) /\
  (grid_rows s', grid_cols s', Ts0_ele s', t_org_start s',
   max_act_layer_depth s')
  = (grid_rows s, grid_cols s, Ts0_ele s, t_org_start s,
     max_act_layer_depth s).
Proof.
  destruct o; simpl; try done.
  unfold run_one_step, assign_column, assign_top.
  generalize 500%nat; intros x; generalize 400%nat; intros y.
  repeat (case_match; simpl; try done).
Qed.

(** No sequence of calls changes the forcing series, the time and depth
    axes, the elevations, or any of the scalar parameters. *)
Theorem configuration_frozen s os :
  let s' := exec_all os s in
  (Ts s', Ts_org s', time s', depth s', elevation s', T_ele s')
  = (Ts s, Ts_org s, time s, depth s, elevation s, T_ele s) /\
  (dz s', thermal_diffusivity s', geotherm s', temp_lapse_rate s',
   timestep_duration_is s', timestep_duration_should s', num_nodes s')
  = (dz s, thermal_diffusivity s, geotherm s, temp_lapse_rate s,
     timestep_duration_is s, timestep_duration_should s, num_nodes s) /\
  (grid_rows s', grid_cols s', Ts0_ele s', t_org_start s',
   max_act_layer_depth s')
  = (grid_rows s, grid_cols s, Ts0_ele s, t_org_start s,
     max_act_layer_depth s).
Proof.
  unfold exec_all. revert s. induction os as [|o os IH]; intros s; [done|].
  simpl. destruct (IH (final (exec o s))) as (-> & -> & ->).
  apply exec_config.
Qed.

End Methods.

(** ** Shapes and progress *)

Section Shape.
Context {F : Type} `{Float F}.
Local Open Scope float_scope.
Implicit Types (s : state F) (a : init_args F) (col : list F).

(** Writing a column of the same length keeps every column length. *)
Lemma column_put_length {A} (arr : list (list (list A))) x y
  (col' old : list A) r c :
  column arr x y = Some old -> length col' = length old ->
  length <$> column (put_column arr x y col') r c = length <$> column arr r c.
Proof.
  intros Hold Hlen. destruct (decide ((r, c) = (x, y))) as [[= -> ->]|Hne].
  - rewrite column_put_same by (by rewrite Hold). rewrite Hold. simpl. by f_equal.
  - by rewrite column_put_other.
Qed.

Lemma length_entering s old col :
  column (temp s) 500 400 = Some old -> entering s = Some col ->
  length col = length old.
Proof.
  unfold entering. intros ->. simpl.
  destruct (current_timestep s =? 0)%nat; [|congruence].
  destruct (Nat.eqb_spec (length (reseed s)) (length old)); [congruence|].
  destruct (reseed s) as [|v0 [|? ?]]; try discriminate.
  intros [= <-]. apply length_replicate.
Qed.

Lemma run_one_step_Raise_temp s e s' :
  run_one_step s = Raise e s' ->
  temp s' = temp s \/
  exists old col, column (temp s) 500 400 = Some old /\
    length col = length old /\ temp s' = put_column (temp s) 500 400 col.
Proof.
  pose proof (length_entering s) as Hent. revert Hent.
  unfold run_one_step, entering.
  generalize 500%nat; intros x; generalize 400%nat; intros y. intros Hent.
  destruct (column (temp s) x y) as [old|] eqn:Hold.
  2:{ unfold assign_column, assign_top. rewrite Hold.
      repeat (case_match; simpl; try done); intros [= _ <-]; by left. }
  specialize (Hent old). simpl in Hent.
  assert (Hsome : is_Some (column (temp s) x y)) by (by rewrite Hold).
  destruct (if (current_timestep s =? 0)%nat
            then assign_column x y (reseed s) s else Ok s)
    as [s1|e1 s1] eqn:H1.
  2:{ simpl. intros [= _ <-]. left. unfold assign_column in H1. rewrite Hold in H1.
      repeat (case_match; simpl in *; try done); by injection H1 as _ <-. }
  assert (exists col, length col = length old /\
            s1 = set_temp (put_column (temp s) x y col) s) as (col & Hlen & ->).
  { unfold assign_column in H1. rewrite Hold in H1. revert H1.
    destruct (current_timestep s =? 0)%nat.
    - destruct (Nat.eqb_spec (length (reseed s)) (length old)).
      + intros [= <-]. by exists (reseed s).
      + destruct (reseed s) as [|v0 [|? ?]]; try discriminate.
        intros [= <-]. eexists. split; [apply length_replicate|done].
    - intros [= <-]. exists old. split; [done|].
      by rewrite (put_column_id _ _ _ _ Hold), set_temp_id. }
  simpl. destruct (Ts s !! current_timestep s) as [v|].
  2:{ intros [= _ <-]. right. by exists old, col. }
  unfold assign_top. simpl. rewrite column_put_same by done.
  destruct col as [|t0 rest].
  { simpl. intros [= _ <-]. right. by exists old, []. }
  simpl.
  repeat (rewrite ?put_column_twice; rewrite ?column_put_same by done;
          cbn beta iota).
  assert (Hd : length (diffuse (set_temp (put_column (temp s) x y (v :: rest))
                 (set_Ts_ini v (set_temp (put_column (temp s) x y (t0 :: rest)) s)))
                 (v :: rest)) = length old).
  { by rewrite length_diffuse. }
  destruct (column (frostcrackA s) x y) as [fcol|].
  - match goal with |- context [if ?b then _ else _] => destruct b end;
      [discriminate|].
    intros [= _ <-]. right. eexists old, _. split; [done|]. split; [exact Hd|done].
  - intros [= _ <-]. right. eexists old, _. split; [done|]. split; [exact Hd|done].
Qed.

Lemma run_one_step_shape s r c :
  let s' := final (run_one_step s) in
  length <$> column (temp s') r c = length <$> column (temp s) r c /\
  length <$> column (frostcrackA s') r c
  = length <$> column (frostcrackA s) r c.
Proof.
  destruct (run_one_step s) as [s'|e s'] eqn:Hstep; simpl.
  - destruct (run_one_step_Ok _ _ Hstep)
      as (t0 & rest & v & fcol & Hent & Hv & Hf & Hlen & ->).
    cbn [temp frostcrackA set_xy set_frostcrackA set_clock set_temp].
    destruct (column (temp s) 500 400) as [old|] eqn:Hold.
    2:{ unfold entering in Hent. by rewrite Hold in Hent. }
    split.
    + eapply column_put_length; [done|]. rewrite length_diffuse.
      by rewrite <- (length_entering s old _ Hold Hent).
    + eapply column_put_length; [done|]. unfold accumulate.
      rewrite length_zip_with, length_diffuse. simpl. lia.
  - rewrite (run_one_step_Raise_frost _ _ _ Hstep). split; [|done].
    destruct (run_one_step_Raise_temp _ _ _ Hstep)
      as [->|(old & col & Hold & Hlen & ->)]; [done|].
    by eapply column_put_length.
Qed.

Lemma exec_shape o s r c :
  let s' := final (exec o s) in
  length <$> column (temp s') r c = length <$> column (temp s) r c /\
  length <$> column (frostcrackA s') r c
  = length <$> column (frostcrackA s) r c.
Proof. destruct o; simpl; auto using run_one_step_shape. Qed.

(** No sequence of calls changes the shape of [temp] or [frostcrackA]:
    at every node the column exists afterwards exactly if it existed
    before, with the same number of samples. *)
Theorem shape_preserved s os r c :
  let s' := exec_all os s in
  length <$> column (temp s') r c = length <$> column (temp s) r c /\
  length <$> column (frostcrackA s') r c
  = length <$> column (frostcrackA s) r c.
Proof.
  unfold exec_all. revert s. induction os as [|o os IH]; intros s; [done|].
  simpl. destruct (IH (final (exec o s))) as [-> ->]. apply exec_shape.
Qed.

(** A ready object with forcing values left makes its next step. *)
Lemma ready_step s :
  ready s = true ->
  (current_timestep s < length (Ts s))%nat ->
  exists s', run_one_step s = Ok s' /\ ready s' = true.
Proof.
  unfold ready, run_one_step, assign_column, assign_top.
  generalize 500%nat; intros x; generalize 400%nat; intros y.
  destruct (column (temp s) x y) as [col|] eqn:Hcol; [|discriminate].
  destruct (column (frostcrackA s) x y) as [fcol|] eqn:Hfcol; [|discriminate].
  intros Hready Hk.
  apply andb_prop in Hready as [Hready Hdepth].
  apply andb_prop in Hready as [Hpos Hflen].
  apply Nat.ltb_lt in Hpos. apply Nat.eqb_eq in Hflen, Hdepth.
  assert (Hsome : is_Some (column (temp s) x y)) by (by rewrite Hcol).
  assert (Hfsome : is_Some (column (frostcrackA s) x y)) by (by rewrite Hfcol).
  destruct (lookup_lt_is_Some_2 (Ts s) (current_timestep s) Hk) as [v Hv].
  cbn beta iota.
  assert (exists s1 t0 rest,
            (if (current_timestep s =? 0)%nat
             then if (length (reseed s) =? length col)%nat
                  then Ok (set_temp (put_column (temp s) x y (reseed s)) s)
                  else match reseed s with
                       | [v0] => Ok (set_temp (put_column (temp s) x y
                                        (replicate (length col) v0)) s)
                       | _ => Raise ValueError s
                       end
             else Ok s) = Ok s1 /\
            s1 = set_temp (put_column (temp s) x y (t0 :: rest)) s /\
            length (t0 :: rest) = length col) as (s1 & t0 & rest & -> & -> & Hlen).
  { destruct (current_timestep s =? 0)%nat.
    - unfold reseed at 1. rewrite length_fmap, Hdepth, Nat.eqb_refl.
      assert (Hr : length (reseed s) = length col)
        by (unfold reseed; by rewrite length_fmap).
      destruct (reseed s) as [|t0 rest]; [simpl in Hr; lia|].
      by eexists _, t0, rest.
    - destruct col as [|t0 rest]; [simpl in Hpos; lia|].
      eexists _, t0, rest. split; [done|]. split; [|done].
      by rewrite (put_column_id _ _ _ _ Hcol), set_temp_id. }
  simpl. rewrite Hv. simpl. rewrite column_put_same by done. simpl.
  repeat (rewrite ?put_column_twice; rewrite ?column_put_same by done;
          cbn beta iota).
  rewrite Hfcol, length_diffuse.
  replace (length (v :: rest) =? length fcol)%nat with true
    by (symmetry; apply Nat.eqb_eq; simpl in *; lia).
  eexists. split; [done|]. simpl.
  rewrite !column_put_same by done.
  unfold accumulate. rewrite length_zip_with, !length_diffuse.
  rewrite andb_true_iff, andb_true_iff, Nat.ltb_lt, !Nat.eqb_eq.
  simpl in *. lia.
Qed.

(** On a ready object the loop runs to the end of the series. *)
Lemma ready_driver s :
  ready s = true ->
  (current_timestep s <= length (Ts s))%nat ->
  exists s', driver (length (Ts s) - current_timestep s) s = Some (Ok s') /\
    current_timestep s' = length (Ts s') /\ Ts s' = Ts s /\ ready s' = true.
Proof.
  remember (length (Ts s) - current_timestep s)%nat as fuel eqn:Hfuel.
  revert s Hfuel. induction fuel as [|fuel IH]; intros s Hfuel Hready Hle; simpl.
  - destruct (Nat.ltb_spec (current_timestep s) (length (Ts s))); [lia|].
    exists s. repeat split; [lia|done].
  - destruct (Nat.ltb_spec (current_timestep s) (length (Ts s))) as [Hlt|]; [|lia].
    destruct (ready_step s Hready Hlt) as (s1 & Hstep & Hready1).
    rewrite Hstep.
    destruct (run_one_step_clock _ _ Hstep) as (Hk & HTs & _).
    destruct (IH s1) as (s' & Hdrv & Hk' & HTs' & Hready');
      [rewrite Hk, HTs; lia | done | rewrite Hk, HTs; lia |].
    exists s'. repeat split; [done..|congruence|done].
Qed.

Lemma column_map3 {A B} (f : A -> B) (arr : list (list (list A))) r c :
  column (map3 f arr) r c = map f <$> column arr r c.
Proof.
  unfold column, map3, map2. rewrite lookup_map.
  destruct (arr !! r) as [row|]; simpl; [|done]. apply lookup_map.
Qed.

(** A constructed object whose DEM has node [(500, 400)] is ready. *)
Lemma init_ready a s row e :
  init a = Ok s ->
  elevation s !! 500%nat = Some row -> row !! 400%nat = Some e ->
  (400 < grid_cols s)%nat ->
  (0 < arg_num_nodes a)%Z ->
  ready s = true.
Proof.
  intros Hinit Hrow He Hc Hn.
  destruct (init_column a s 500 400 row e Hinit Hrow He Hc) as (_ & Hlen & Hcol).
  assert (HA : column (frostcrackA s) 500 400
               = map (fun _ => lit 0) <$> column (temp s) 500 400).
  { destruct (init_Ok _ _ Hinit)
      as (elev & Tele & Torg & t0 & tnew & Tnew & dz_ & should & is_ &
          _ & _ & _ & _ & _ & ->).
    apply column_map3. }
  unfold ready. rewrite HA, Hcol. simpl.
  rewrite length_map, !length_zip_with, length_replicate, length_fmap, Hlen.
  rewrite andb_true_iff, andb_true_iff, Nat.ltb_lt, !Nat.eqb_eq. lia.
Qed.

(** On an object whose active column is non-empty and as long as
    [depth] and as its [frostcrackA] column, a step called with
    [current_timestep < len(Ts)] returns; the object it returns is again
    such an object, one step later in the same forcing series. *)
Theorem step_returns s :
  ready s = true ->
  (current_timestep s < length (Ts s))%nat ->
  exists s', run_one_step s = Ok s' /\ ready s' = true /\
    current_timestep s' = S (current_timestep s) /\ Ts s' = Ts s.
Proof.
  intros Hready Hlt.
  destruct (ready_step s Hready Hlt) as (s' & Hstep & Hready').
  destruct (run_one_step_clock _ _ Hstep) as (Hk & HTs & _).
  by exists s'.
Qed.

(** The loop of the notebook, run on an object constructed from a DEM
    that has node [(500, 400)] and with at least one depth sample, ends
    without an exception after [len(Ts)] steps. *)
Theorem constructed_run_completes a s row e :
  init a = Ok s ->
  elevation s !! 500%nat = Some row -> row !! 400%nat = Some e ->
  (400 < grid_cols s)%nat ->
  (0 < arg_num_nodes a)%Z ->
  exists s', driver (length (Ts s)) s = Some (Ok s') /\
    current_timestep s' = length (Ts s') /\ Ts s' = Ts s.
Proof.
  intros Hinit Hrow He Hc Hn.
  pose proof (init_ready a s row e Hinit Hrow He Hc Hn) as Hready.
  assert (Hk : current_timestep s = 0%nat).
  { destruct (init_Ok _ _ Hinit)
      as (elev & Tele & Torg & t0 & tnew & Tnew & dz_ & should & is_ &
          _ & _ & _ & _ & _ & ->). done. }
  destruct (ready_driver s Hready) as (s' & Hdrv & Hk' & HTs & _); [lia|].
  rewrite Hk, Nat.sub_0_r in Hdrv. by exists s'.
Qed.

End Shape.

(** ** The end of a run, and the numbers *)

Section LastValue.
Context {F : Type} `{Float F}.
Local Open Scope float_scope.
Implicit Types (s : state F).

Lemma step_top s s' :
  run_one_step s = Ok s' ->
  sample (temp s') 500 400 0 = Ts s' !! (current_timestep s' - 1)%nat /\
  (0 < current_timestep s')%nat.
Proof.
  intros Hstep.
  destruct (column_after_step _ _ Hstep) as (t0 & rest & v & _ & Hv & HT').
  destruct (run_one_step_clock _ _ Hstep) as (-> & -> & _).
  unfold sample. rewrite HT'. cbn [mbind option_bind].
  rewrite lookup_diffuse_top.
  replace (S (current_timestep s) - 1)%nat with (current_timestep s) by lia.
  split; [by rewrite Hv|lia].
Qed.

Lemma driver_top fuel s s' :
  driver fuel s = Some (Ok s') ->
  (current_timestep s < length (Ts s))%nat ->
  sample (temp s') 500 400 0 = Ts s' !! (current_timestep s' - 1)%nat.
Proof.
  revert s. induction fuel as [|fuel IH]; intros s; simpl.
  - destruct (Nat.ltb_spec (current_timestep s) (length (Ts s))); [done|lia].
  - destruct (Nat.ltb_spec (current_timestep s) (length (Ts s))); [|lia].
    destruct (run_one_step s) as [s1|e s1] eqn:Hstep; [|discriminate].
    intros Hdrv _. destruct (step_top _ _ Hstep) as [Htop Hpos].
    destruct (Nat.ltb_spec (current_timestep s1) (length (Ts s1))) as [Hlt|Hge].
    + by apply (IH s1).
    + destruct fuel; simpl in Hdrv;
        (destruct (Nat.ltb_spec (current_timestep s1) (length (Ts s1)));
         [lia|]); by injection Hdrv as <-.
Qed.

(** When the loop has run on a ready object with forcing values left,
    the top sample of the active column is the last value of the forcing
    series. *)
Theorem run_ends_on_last_forcing s :
  ready s = true ->
  (current_timestep s < length (Ts s))%nat ->
  exists s',
    driver (length (Ts s) - current_timestep s) s = Some (Ok s') /\
    sample (temp s') 500 400 0 = Ts s !! (length (Ts s) - 1)%nat.
Proof.
  intros Hready Hlt.
  destruct (ready_driver s Hready) as (s' & Hdrv & Hk & HTs & _); [lia|].
  exists s'. split; [done|].
  rewrite (driver_top _ _ _ Hdrv Hlt), Hk, HTs. done.
Qed.

End LastValue.

Section RationalExtras.
Local Open Scope Q_scope.
Implicit Types (s : state Q) (a : init_args Q) (x y t : Q).

(** The time axis of a constructed object is hourly: [time[i]] is
    [3600 * i] seconds and [timestep_duration_is] is 3600, whatever the
    spacing of the NetCDF record. *)
Theorem init_hourly a s :
  init a = Ok s ->
  timestep_duration_is s = 3600 /\
  forall i t, time s !! i = Some t -> t == 3600 * inject_Z (Z.of_nat i).
Proof.
  intros Hinit. split; [exact (proj1 (init_timestep a s Hinit))|].
  destruct (init_Ok _ _ Hinit)
    as (elev & Tele & Torg & t0 & tnew & Tnew & dz_ & should & is_ &
        Hg & Hn & Hs & Hgt & Hnn & ->).
  cbn [time].
  destruct (load_netcdf_Ok _ _ _ _ _ Hn) as (_ & _ & (t_last & ->) & _).
  intros i t Ht. apply arange_lookup in Ht as ->.
  rewrite fadd_Q, fmul_Q, of_nat_Q, !lit_Q. ring.
Qed.

Lemma exec_frost_bounded o s r c i v :
  sample (frostcrackA s) r c i = Some v ->
  exists v', sample (frostcrackA (final (exec o s))) r c i = Some v' /\
    v' <= v + frost_increment.
Proof.
  intros Hv.
  assert (Hsame : v <= v + frost_increment).
  { rewrite <- (Qplus_0_r v) at 1.
    apply Qplus_le_r, Qlt_le_weak, frost_increment_pos. }
  destruct o; simpl; try (by exists v).
  destruct (run_one_step s) as [s'|e s'] eqn:Hstep; simpl.
  - destruct (decide ((r, c) = (500, 400)%nat)) as [[= -> ->]|Hne].
    + destruct (frost_step _ _ _ _ Hstep Hv) as (t & _ & ->).
      eexists; split; [done|]. destruct (in_window t); [|done].
      rewrite fadd_Q. apply Qle_refl.
    + pose proof (run_one_step_frame s r c Hne) as [_ Hfr].
      rewrite Hstep in Hfr. simpl in Hfr. unfold sample. rewrite Hfr.
      by exists v.
  - rewrite (run_one_step_Raise_frost _ _ _ Hstep). by exists v.
Qed.

(** A sequence of [n] calls raises an entry of [frostcrackA] by at most
    [n / (3600*24*365)]. *)
Theorem frost_index_bounded s os r c i v :
  sample (frostcrackA s) r c i = Some v ->
  exists v', sample (frostcrackA (exec_all os s)) r c i = Some v' /\
    v' <= v + inject_Z (Z.of_nat (length os)) * frost_increment.
Proof.
  unfold exec_all. revert s v.
  induction os as [|o os IH]; intros s v Hv.
  - exists v. split; [done|]. simpl. rewrite Qmult_0_l, Qplus_0_r. apply Qle_refl.
  - cbn [foldl].
    destruct (exec_frost_bounded o s r c i v Hv) as (v1 & Hv1 & Hle1).
    destruct (IH _ v1 Hv1) as (v' & Hv' & Hle').
    exists v'. split; [done|].
    eapply Qle_trans; [exact Hle'|].
    eapply Qle_trans; [apply Qplus_le_l, Hle1|].
    cbn [length]. rewrite Nat2Z.inj_succ. unfold Z.succ. rewrite inject_Z_plus.
    apply Qle_lteq. right. ring.
Qed.

(** A column whose neighbouring samples all differ by the same amount
    (a constant column, or the geothermal line) is a fixed point of the
    diffusion update. *)
Theorem uniform_gradient_is_steady s col g :
  (forall i x y, col !! i = Some x -> col !! S i = Some y -> y - x == g) ->
  forall i t, col !! i = Some t ->
    exists t', diffuse s col !! i = Some t' /\ t' == t.
Proof.
  intros Hg i t Ht.
  assert (Hi : (i < length col)%nat) by (by eapply lookup_lt_Some).
  destruct (decide (i = 0%nat)) as [->|Hi0].
  { exists t. by rewrite lookup_diffuse_top. }
  destruct (decide (i = (length col - 1)%nat)) as [->|Hlast].
  { exists t. by rewrite lookup_diffuse_bottom by lia. }
  destruct (lookup_lt_is_Some_2 col (S i)) as [y Hy]; [lia|].
  destruct (lookup_lt_is_Some_2 col (i - 1)) as [x Hx]; [lia|].
  assert (Hx' : col !! S (i - 1) = Some t) by (by replace (S (i - 1)) with i by lia).
  pose proof (lookup_flux s col i t y Ht Hy) as Hq.
  pose proof (lookup_flux s col (i - 1) x t Hx Hx') as Hq1.
  eexists. split.
  { eapply lookup_diffuse_interior; [lia|lia|done|exact Hq|exact Hq1]. }
  rewrite fsub_Q, fdiv_Q, fmul_Q, fsub_Q, !fdiv_Q, !fmul_Q, !fsub_Q.
  rewrite (Hg i t y Ht Hy), (Hg (i - 1)%nat x t Hx Hx').
  unfold Qdiv. ring.
Qed.

(** A NetCDF record with a single time sample gives an empty hourly
    axis, and the constructor raises IndexError at [time[1]]. *)
Theorem init_single_sample a g t0 ts0 :
  setup_grid a = Ok g ->
  arg_nc_time a = [t0] -> arg_nc_ts a = [ts0] ->
  arg_num_nodes a <> 1%Z ->
  ~ arg_thermal_diffusivity a == 0 ->
  init a = Raise IndexError tt.
Proof.
  intros Hg Ht Hts Hn Hk. unfold init. rewrite Hg. destruct g as [elev Tele].
  assert (Hload : load_netcdf a
                  = Ok ([fsub ts0 (lit 273.15)], t0, [], [])).
  { unfold load_netcdf. rewrite Ht, Hts. cbn [lookup list_lookup from_option
      mbind result_bind fmap list_fmap last].
    assert (H0 : fmul (fmul (fmul (fsub t0 t0) (lit 24)) (lit 60)) (lit 60) = 0).
    { apply Qred_zero. rewrite !fmul_Q, fsub_Q. ring. }
    rewrite H0. reflexivity. }
  simpl. rewrite Hload. simpl. unfold set_steps.
  destruct (Z.eqb_spec (arg_num_nodes a - 1) 0); [lia|].
  destruct (feqb (fmul (lit 2) (arg_thermal_diffusivity a)) (lit 0)) eqn:Hz;
    [|done].
  exfalso. apply Hk. apply Qeq_bool_iff in Hz. rewrite fmul_Q, !lit_Q in Hz.
  apply (Qmult_inj_l _ _ 2); [done|]. by rewrite Hz, Qmult_0_r.
Qed.

(** The accumulation of one returning step, in numbers: an entry of the
    active column grows by [1/31536000] when the new temperature of its
    sample is strictly between -8 and -3, and keeps its value
    otherwise. *)
Theorem frost_accumulation_law s s' i f :
  run_one_step s = Ok s' ->
  sample (frostcrackA s) 500 400 i = Some f ->
  exists t f', sample (temp s') 500 400 i = Some t /\
    sample (frostcrackA s') 500 400 i = Some f' /\
    (-8 < t /\ t < -3 -> f' == f + (1 # 31536000)) /\
    (~ (-8 < t /\ t < -3) -> f' = f).
Proof.
  intros Hstep Hf.
  destruct (frost_step _ _ _ _ Hstep Hf) as (t & Ht & Hf').
  exists t. eexists. split; [done|]. split; [exact Hf'|].
  assert (Hwin : in_window t = true <-> -8 < t /\ t < -3).
  { unfold in_window. rewrite andb_true_iff.
    change (fltb (lit (-8)) t) with (Qltb (-8) t).
    change (fltb t (lit (-3))) with (Qltb t (-3)).
    by rewrite !Qltb_lt. }
  destruct (in_window t); split; intros Hin.
  - rewrite fadd_Q. apply Qplus_comp; reflexivity.
  - by destruct Hin; apply Hwin.
  - by apply Hwin in Hin.
  - done.
Qed.

End RationalExtras.

Local Open Scope Q_scope.

(** ** The further properties on the demo objects *)

Lemma gap_free_dem_witness :
  setup_grid small_args
  = Ok (replicate 100 (replicate 120 250),
        mean (concat (concat (arg_dem_data small_args)))).
Proof.
  refine (gap_free_dem small_args _ _ eq_refl eq_refl _).
  apply Forall_singleton. by do 2 apply Forall_replicate.
Defined.

Lemma init_without_input_witness : init no_time_args = Raise IndexError tt.
Proof.
  refine (init_without_input no_time_args (value_or ([], 0) (setup_grid no_time_args))
            _ eq_refl).
  refine (Ok_value _ (setup_grid no_time_args) _). vm_compute. reflexivity.
Defined.

Lemma init_single_sample_witness :
  init single_sample_args = Raise IndexError tt.
Proof.
  refine (init_single_sample single_sample_args
            (value_or ([], 0) (setup_grid single_sample_args)) 0 268.15
            _ eq_refl eq_refl _ _).
  - refine (Ok_value _ (setup_grid single_sample_args) _). vm_compute. reflexivity.
  - discriminate.
  - discriminate.
Defined.

Lemma init_series_witness :
  (2 <= length (Ts small_state))%nat /\
  length (Ts small_state) = length (time small_state) /\
  current_timestep small_state = 0%nat.
Proof. exact (init_series small_args small_state small_state_built). Defined.

Lemma init_hourly_witness :
  timestep_duration_is small_state = 3600 /\
  forall i t, time small_state !! i = Some t ->
    t == 3600 * inject_Z (Z.of_nat i).
Proof. exact (init_hourly small_args small_state small_state_built). Defined.

Lemma step_advances_clock_witness :
  (current_timestep demo_state < length (Ts demo_state))%nat /\
  current_timestep demo_state1 = S (current_timestep demo_state) /\
  current_time demo_state1
  = fadd (current_time demo_state) (timestep_duration_is demo_state) /\
  Some (Ts_ini demo_state1) = Ts demo_state !! current_timestep demo_state /\
  self_x demo_state1 = Some 500%nat /\ self_y demo_state1 = Some 400%nat.
Proof. exact (step_advances_clock demo_state demo_state1 demo_state_steps). Defined.

Lemma step_off_grid_witness :
  exists s', run_one_step small_state = Raise IndexError s' /\
    temp s' = temp small_state /\ frostcrackA s' = frostcrackA small_state /\
    current_timestep s' = current_timestep small_state /\
    current_time s' = current_time small_state.
Proof. refine (step_off_grid small_state _). vm_compute. reflexivity. Defined.

Lemma step_returns_witness :
  exists s', run_one_step demo_state = Ok s' /\ ready s' = true /\
    current_timestep s' = S (current_timestep demo_state) /\
    Ts s' = Ts demo_state.
Proof.
  refine (step_returns demo_state _ _); vm_compute; [reflexivity|lia].
Defined.

Lemma constructed_run_completes_witness :
  exists s', driver (length (Ts demo_state)) demo_state = Some (Ok s') /\
    current_timestep s' = length (Ts s') /\ Ts s' = Ts demo_state.
Proof.
  refine (constructed_run_completes demo_args demo_state (replicate 401 0) 0
            demo_state_built _ _ _ _).
  - exact (lookup_replicate_2 501 (replicate 401 0) 500 ltac:(lia)).
  - exact (lookup_replicate_2 401 0 400 ltac:(lia)).
  - vm_compute. lia.
  - reflexivity.
Defined.

Lemma run_ends_on_last_forcing_witness :
  exists s',
    driver (length (Ts demo_state) - current_timestep demo_state) demo_state
    = Some (Ok s') /\
    sample (temp s') 500 400 0
    = Ts demo_state !! (length (Ts demo_state) - 1)%nat.
Proof.
  refine (run_ends_on_last_forcing demo_state _ _); vm_compute;
    [reflexivity|lia].
Defined.

Lemma frost_index_bounded_witness :
  exists v',
    sample (frostcrackA (exec_all [Run_one_step] demo_state)) 500 400 0
    = Some v' /\
    v' <= 0 + inject_Z (Z.of_nat (length [Run_one_step])) * frost_increment.
Proof.
  refine (frost_index_bounded demo_state [Run_one_step] 500 400 0 0 _).
  vm_compute. reflexivity.
Defined.

Lemma frost_accumulation_law_witness :
  exists t f', sample (temp demo_state1) 500 400 0 = Some t /\
    sample (frostcrackA demo_state1) 500 400 0 = Some f' /\
    (-8 < t /\ t < -3 -> f' == 0 + (1 # 31536000)) /\
    (~ (-8 < t /\ t < -3) -> f' = 0).
Proof.
  refine (frost_accumulation_law demo_state demo_state1 0 0 demo_state_steps _).
  vm_compute. reflexivity.
Defined.

Lemma uniform_gradient_is_steady_witness :
  exists t', diffuse demo_state [-5; -4; -3] !! 1%nat = Some t' /\ t' == -4.
Proof.
  refine (uniform_gradient_is_steady demo_state [-5; -4; -3] 1 _ 1%nat (-4)
            eq_refl).
  intros [|[|[|i]]] x y Hx Hy; simplify_eq/=; reflexivity.
Defined.
